(** * Power-market forecasting and bidding server: a shallow embedding of server.js

    The development follows [server.js]: the observation store filled by
    [loadExcelData], the forecast of [runPredictionAlgorithm], the bid
    construction of [runOptimizationAlgorithm], the two POST routes and the
    three GET routes with the loads they trigger.

    Numbers.  A JavaScript number is modelled as an exact real ([R]); the
    rounding of IEEE doubles is not modelled there, and the statements over
    [R] are those that the program also satisfies with its operations rounded.
    The values that are not reals appear where the program can meet them:
    [NaN] and the infinities as results of [parseFloat] during ingestion
    ([JS.num]), and [NaN] as the quotient [0 / 0] of the sum of an empty array
    by its length ([MathJS.div_length]) in the averages.  The store holds
    finite prices.  The decision rule of the optimizer is given a second time
    on binary64 floats ([Doubles]), to evaluate it as the engine does.
    Requests are taken with their fields present and numeric, and the horizon
    an integer, as the dashboard sends them.

    Time.  A [Date] is its time value, milliseconds since the epoch ([Z]), at
    most 8.64e15 either side of it, or invalid ([None]); the local time zone
    of the process is a parameter [LocalTZA].  What [new Date] makes of a
    stored timestamp, and the month of an instant, are parameters of the GET
    routes.

    Randomness.  The calls of [Math.random()] are numbered in program order and
    their results supplied by an oracle [rnd : nat -> R]. *)

From Stdlib Require Import Reals Lra Lia ZArith List String Ascii Bool.
From Stdlib Require Import DecimalString.
From Stdlib Require Floats.PrimFloat.
From stdpp Require Import base gmap strings.
Import ListNotations.

(** ** JavaScript values met during ingestion *)

Module JS.

Open Scope Z_scope.

(** The result of a numeric conversion. *)
Inductive num : Type :=
| NaN
| Inf (negative : bool)
| Num (x : R).

(** A cell of a parsed sheet row: absent key, number, text or boolean. *)
Inductive value : Type :=
| VUndefined
| VNum (n : num)
| VStr (s : string)
| VBool (b : bool).

Definition isNaN (n : num) : bool :=
  match n with NaN => true | _ => false end.

(** ToBoolean on numbers: [NaN] and [0] are falsy. *)
Definition num_truthy (n : num) : bool :=
  match n with
  | NaN => false
  | Inf _ => true
  | Num x => if Req_dec_T x 0 then false else true
  end.

(** ToBoolean. *)
Definition truthy (v : value) : bool :=
  match v with
  | VUndefined => false
  | VNum n => num_truthy n
  | VStr s => negb (String.eqb s EmptyString)
  | VBool b => b
  end.

(** [a || b] on values. *)
Definition or_else (a b : value) : value := if truthy a then a else b.

(** [a || b] on numbers. *)
Definition num_or (a b : num) : num := if num_truthy a then a else b.

(** *** parseFloat *)

Definition byte (c : ascii) : Z := Z.of_nat (nat_of_ascii c).

(** The white space and line terminators of one byte: TAB, LF, VT, FF, CR and
    the space. *)
Definition isWhiteSpace (c : ascii) : bool :=
  (byte c =? 32) || ((9 <=? byte c) && (byte c <=? 13)).

(** Those of three bytes in UTF-8: U+1680, U+2000 to U+200A, U+2028, U+2029,
    U+202F, U+205F, U+3000 and U+FEFF. *)
Definition isWhiteSpace3 (b1 b2 b3 : Z) : bool :=
  ((b1 =? 225) && (b2 =? 154) && (b3 =? 128))
  || ((b1 =? 226) && (b2 =? 128)
      && (((128 <=? b3) && (b3 <=? 138)) || (b3 =? 168) || (b3 =? 169)
          || (b3 =? 175)))
  || ((b1 =? 226) && (b2 =? 129) && (b3 =? 159))
  || ((b1 =? 227) && (b2 =? 128) && (b3 =? 128))
  || ((b1 =? 239) && (b2 =? 187) && (b3 =? 191)).

(** Drops the leading white space of a string given by its UTF-8 bytes;
    U+00A0 is the two bytes 194, 160. *)
Fixpoint trimStart (s : string) : string :=
  match s with
  | String c1 r1 =>
      if isWhiteSpace c1 then trimStart r1
      else
        match r1 with
        | String c2 r2 =>
            if (byte c1 =? 194) && (byte c2 =? 160) then trimStart r2
            else
              match r2 with
              | String c3 r3 =>
                  if isWhiteSpace3 (byte c1) (byte c2) (byte c3)
                  then trimStart r3 else s
              | EmptyString => s
              end
        | EmptyString => s
        end
  | EmptyString => s
  end.

Definition digitVal (c : ascii) : option Z :=
  let n := byte c in
  if (48 <=? n) && (n <=? 57) then Some (n - 48) else None.

(** Reads the leading decimal digits of [s] after the digits already read
    ([acc], [cnt] of them): the value, the count and the rest. *)
Fixpoint readDigits (s : string) (acc cnt : Z) : Z * Z * string :=
  match s with
  | String c r =>
      match digitVal c with
      | Some d => readDigits r (10 * acc + d) (cnt + 1)
      | None => (acc, cnt, s)
      end
  | EmptyString => (acc, cnt, s)
  end.

Definition readSign (s : string) : bool * string :=
  match s with
  | String "-"%char r => (true, r)
  | String "+"%char r => (false, r)
  | _ => (false, s)
  end.

(** The exponent part [e±ddd]; an incomplete one is not consumed. *)
Definition readExponent (s : string) : Z :=
  match s with
  | String c r =>
      if (Ascii.eqb c "e" || Ascii.eqb c "E")%bool then
        let (eneg, r1) := readSign r in
        let '(ev, en, _) := readDigits r1 0 0 in
        if en =? 0 then 0 else if eneg then - ev else ev
      else 0
  | EmptyString => 0
  end.

(** [m × 10^k] as a real. *)
Definition decimalValue (m k : Z) : R :=
  if 0 <=? k then IZR (m * 10 ^ k) else (IZR m / IZR (10 ^ (- k)))%R.

(** The double nearest to [m × 10^k], for [0 <= m], is an infinity from
    [2^1024 - 2^970] on and zero up to [2^-1075]. *)
Definition overflows (m k : Z) : bool :=
  if 0 <=? k then 2 ^ 1024 - 2 ^ 970 <=? m * 10 ^ k
  else (2 ^ 1024 - 2 ^ 970) * 10 ^ (- k) <=? m.

Definition underflows (m k : Z) : bool :=
  if 0 <=? k then m =? 0 else m * 2 ^ 1075 <=? 10 ^ (- k).

(** The number read from the digits [m], the decimal exponent [k] and the
    sign; between the two bounds the value is taken exactly. *)
Definition decimalNumber (neg : bool) (m k : Z) : num :=
  if overflows m k then Inf neg
  else if underflows m k then Num 0
  else Num (decimalValue (if neg then - m else m) k).

(** The longest prefix that is a StrDecimalLiteral, or [NaN]. *)
Definition parseDecimalLiteral (s : string) : num :=
  let (neg, s1) := readSign s in
  if String.prefix "Infinity" s1 then Inf neg else
  let '(m1, n1, s2) := readDigits s1 0 0 in
  let '(m, n2, s3) :=
    match s2 with
    | String "."%char r => readDigits r m1 0
    | _ => (m1, 0, s2)
    end in
  if n1 + n2 =? 0 then NaN
  else decimalNumber neg m (readExponent s3 - n2).

(** [parseFloat(v)]: the argument is converted to a string, leading white
    space is dropped and the longest numeric prefix is read.  The string of a
    number reads back as that number; those of [undefined], [true] and
    [false] have no numeric prefix. *)
Definition parseFloat (v : value) : num :=
  match v with
  | VUndefined => NaN
  | VBool _ => NaN
  | VNum n => n
  | VStr s => parseDecimalLiteral (trimStart s)
  end.

End JS.

(** ** The observation store *)

Module Store.

(** A retained observation as the forecast reads it, in a store whose fields
    are all finite numbers.  An item with an infinite field, which the load
    keeps, has no such observation ([Ingest.observe]). *)
Record Observation : Type := {
  timestamp : JS.value;
  price : R;
  load : R;
  demand : R;
  supply : R
}.

(** The two globals of the server. *)
Record State : Type := {
  powerMarketData : list Observation;
  isDataLoaded : bool
}.

(** [let powerMarketData = []; let isDataLoaded = false;] *)
Definition initial : State :=
  {| powerMarketData := []; isDataLoaded := false |}.

End Store.

(** ** Ingestion: loadExcelData *)

Module Ingest.

Import JS.

(** A row of [XLSX.utils.sheet_to_json]: an object keyed by column header. *)
Abbreviation Row := (gmap string value).

(** [row[k]] *)
Definition get (row : Row) (k : string) : value :=
  default VUndefined (row !! k).

(** [row[a] || row[b] || row[c]] *)
Definition firstOf (row : Row) (a b c : string) : value :=
  or_else (or_else (get row a) (get row b)) (get row c).

(** The object built by the [map] callback. *)
Record Item : Type := {
  timestamp : value;
  price : num;
  load : num;
  demand : num;
  supply : num
}.

(** [parseFloat(row[a] || row[b] || row[c]) || 0] *)
Definition numberOf (row : Row) (a b c : string) : num :=
  num_or (parseFloat (firstOf row a b c)) (Num 0).

Definition normalize (row : Row) : Item :=
  {| timestamp := firstOf row "时间" "timestamp" "Time";
     price := numberOf row "电价" "price" "Price";
     load := numberOf row "负荷" "load" "Load";
     demand := numberOf row "需求" "demand" "Demand";
     supply := numberOf row "供应" "supply" "Supply" |}.

(** [item => item.timestamp && !isNaN(item.price)] *)
Definition keep (item : Item) : bool :=
  truthy (timestamp item) && negb (isNaN (price item)).

(** A workbook file on disk: missing, not parseable (the read throws) or
    the rows of its first sheet. *)
Inductive Source : Type :=
| Absent
| Unreadable
| Sheet (rows : list Row).

(** [if (fs.existsSync(f)) { ... allData = allData.concat(data) }];
    [None] when [XLSX.readFile] throws. *)
Definition readInto (allData : list Row) (f : Source) : option (list Row) :=
  match f with
  | Absent => Some allData
  | Unreadable => None
  | Sheet rows => Some (allData ++ rows)
  end.

(** The function's state is the pair of globals; the store holds the items
    as built. *)
Record State : Type := {
  powerMarketData : list Item;
  isDataLoaded : bool
}.

Definition loadExcelData (mayFile juneFile : Source) (st : State)
  : State * bool :=
  match readInto [] mayFile with
  | None => (st, false)
  | Some allData =>
      match readInto allData juneFile with
      | None => (st, false)
      | Some allData =>
          ({| powerMarketData := List.filter keep (map normalize allData);
              isDataLoaded := true |}, true)
      end
  end.

(** The store as the forecast reads it: defined when every field of every
    item is a finite number. *)
Definition finite (n : num) : option R :=
  match n with Num x => Some x | _ => None end.

Definition observe (it : Item) : option Store.Observation :=
  p ← finite (price it); l ← finite (load it);
  d ← finite (demand it); s ← finite (supply it);
  Some {| Store.timestamp := timestamp it; Store.price := p; Store.load := l;
          Store.demand := d; Store.supply := s |}.

Definition observations (st : State) : option Store.State :=
  obs ← mapM observe (powerMarketData st);
  Some {| Store.powerMarketData := obs; Store.isDataLoaded := isDataLoaded st |}.

Definition no_infinity (it : Item) : Prop :=
  forall s, price it <> Inf s /\ load it <> Inf s /\
            demand it <> Inf s /\ supply it <> Inf s.

End Ingest.

(** ** Results of the two algorithms *)

(** The errors the forecast can throw: the one it constructs itself,
    [new Error('真实数据未加载')], and the RangeError "Invalid time value" of
    [toISOString()] on an invalid date. *)
Inductive Error : Type :=
| DataNotLoaded
| InvalidTimeValue.

(** A call either returns or throws (the [catch] blocks log and rethrow). *)
Inductive Result (A : Type) : Type :=
| Ok (a : A)
| Throw (e : Error).

Arguments Ok {A} a.
Arguments Throw {A} e.

(** ** mathjs and the quotients by a length *)

Module MathJS.

Open Scope R_scope.

(** [xs.reduce((sum, x) => sum + x, 0)] *)
Definition sum (xs : list R) : R := fold_left Rplus xs 0.

(** [s / n] for an array length [n]: [0 / 0] is [NaN] and [s / 0] an
    infinity. *)
Definition div_length (s : R) (n : nat) : JS.num :=
  match n with
  | O => if Req_dec_T s 0 then JS.NaN
         else JS.Inf (if Rlt_dec s 0 then true else false)
  | S _ => JS.Num (s / INR n)
  end.

(** [a * b] on numbers, one of which may be [NaN] or infinite. *)
Definition mul (a b : JS.num) : JS.num :=
  match a, b with
  | JS.NaN, _ | _, JS.NaN => JS.NaN
  | JS.Num x, JS.Num y => JS.Num (x * y)
  | JS.Inf s, JS.Inf t => JS.Inf (xorb s t)
  | JS.Inf s, JS.Num y | JS.Num y, JS.Inf s =>
      if Req_dec_T y 0 then JS.NaN
      else JS.Inf (xorb s (if Rlt_dec y 0 then true else false))
  end.

(** [a > b]: false as soon as one side is [NaN]. *)
Definition gt (a b : JS.num) : bool :=
  match a, b with
  | JS.NaN, _ | _, JS.NaN => false
  | JS.Num x, JS.Num y => if Rgt_dec x y then true else false
  | JS.Inf s, JS.Inf t => negb s && t
  | JS.Inf s, JS.Num _ => negb s
  | JS.Num _, JS.Inf t => t
  end.

(** [math.variance] with its default normalisation ['unbiased']: the sum of
    squared deviations from the mean over [n - 1], and 0 for one value.  (On
    an empty array mathjs throws; the forecast reaches it only with a
    non-empty window.) *)
Definition variance (xs : list R) : R :=
  let num := length xs in
  let mean := sum xs / INR num in
  let ss := fold_left (fun acc v => acc + (v - mean) * (v - mean)) xs 0 in
  match num with
  | 1%nat => 0
  | _ => ss / (INR num - 1)
  end.

(** [math.std(xs)] *)
Definition std (xs : list R) : R := sqrt (variance xs).

End MathJS.

(** ** The forecast: runPredictionAlgorithm *)

(** One element of [predictions]; [timestamp] is the time value that
    [toISOString()] prints. *)
Module Point.

Record ForecastPoint : Type := {
  timestamp : Z;
  predicted_price : R;
  confidence_lower : R;
  confidence_upper : R;
  confidence_level : R
}.

End Point.

(** The [statistics] object of the forecast result. *)
Module Stats.

Record Statistics : Type := {
  average_price : JS.num;
  total_points : nat;
  confidence_level : R;
  based_on_real_data : bool;
  real_data_points : nat
}.

End Stats.

Module Forecast.

Import Store.

Open Scope R_scope.

(** The request: [prediction_date] is the time value of
    [new Date(config.prediction_date)], [None] for an invalid date. *)
Record Config : Type := {
  prediction_date : option Z;
  prediction_hours : Z;
  confidence_level : R
}.

Record PredictionResult : Type := {
  success : bool;
  predictions : list Point.ForecastPoint;
  statistics : Stats.Statistics;
  accuracy : R
}.

(** [xs.slice(-n)]: the last [n] elements, all of them when there are fewer. *)
Definition slice_last {A : Type} (n : nat) (xs : list A) : list A :=
  skipn (length xs - n) xs.

Definition avgPrice (recentData : list Observation) : R :=
  fold_left (fun sum item => sum + price item) recentData 0
  / INR (length recentData).

Definition priceStd (recentData : list Observation) : R :=
  MathJS.std (map price recentData).

(** The three adjustments, applied in the order of the source. *)
Definition timeFactor (hourOfDay dayOfWeek : Z) : R :=
  let timeFactor := 1.0 in
  let timeFactor :=
    if ((8 <=? hourOfDay) && (hourOfDay <=? 10))%Z then 1.2 else timeFactor in
  let timeFactor :=
    if ((18 <=? hourOfDay) && (hourOfDay <=? 20))%Z then 1.3 else timeFactor in
  let timeFactor :=
    if ((dayOfWeek =? 0) || (dayOfWeek =? 6))%Z then timeFactor * 0.9
    else timeFactor in
  timeFactor.

(** [avgPrice * timeFactor + (Math.random() - 0.5) * priceStd * 0.3], the
    price before it is clamped at 0; [u] is the random draw. *)
Definition predictedPrice (avgPrice priceStd timeFactor u : R) : R :=
  avgPrice * timeFactor + (u - 0.5) * priceStd * 0.3.

Definition confidenceRange (priceStd confidence_level : R) : R :=
  priceStd * (1 - confidence_level) * 2.

(** The largest time value of a [Date], in milliseconds either side of the
    epoch, and TimeClip: a time beyond it makes an invalid date. *)
Definition maxTimeValue : Z := 8640000000000000.

Definition TimeClip (t : Z) : option Z :=
  if (Z.abs t <=? maxTimeValue)%Z then Some t else None.

(** [new Date(baseDate.getTime() + i * 15 * 60 * 1000)]: invalid when
    [baseDate] is, or when the sum leaves the range. *)
Definition timestampOf (baseDate : option Z) (i : nat) : option Z :=
  match baseDate with
  | Some t => TimeClip (t + Z.of_nat i * 15 * 60 * 1000)
  | None => None
  end.

Section WithEnvironment.

(** Offset of local time from UTC, in milliseconds, at a given instant. *)
Variable LocalTZA : Z -> Z.

(** The successive results of [Math.random()]. *)
Variable rnd : nat -> R.

(** [Date.prototype.getHours] and [getDay] (0 is Sunday; the epoch was a
    Thursday). *)
Definition getHours (t : Z) : Z := ((t + LocalTZA t) / 3600000) mod 24.
Definition getDay (t : Z) : Z := (((t + LocalTZA t) / 86400000) + 4) mod 7.

(** The unclamped price of step [i], stamped [timestamp]. *)
Definition stepPrice (avgPrice priceStd : R) (timestamp : Z) (i : nat) : R :=
  predictedPrice avgPrice priceStd
    (timeFactor (getHours timestamp) (getDay timestamp)) (rnd i).

(** The object pushed at step [i] for a valid [timestamp]. *)
Definition pointAt (avgPrice priceStd : R) (config : Config) (timestamp : Z)
  (i : nat) : Point.ForecastPoint :=
  let predictedPrice := stepPrice avgPrice priceStd timestamp i in
  let confidenceRange := confidenceRange priceStd (confidence_level config) in
  {| Point.timestamp := timestamp;
     Point.predicted_price := Rmax 0 predictedPrice;
     Point.confidence_lower := Rmax 0 (predictedPrice - confidenceRange);
     Point.confidence_upper := predictedPrice + confidenceRange;
     Point.confidence_level := confidence_level config |}.

(** The body of the loop.  On an invalid date the hour and the day are [NaN]
    and a price is still computed, but [timestamp.toISOString()] throws
    before anything is pushed. *)
Definition iteration (avgPrice priceStd : R) (config : Config) (i : nat)
  : Result Point.ForecastPoint :=
  match timestampOf (prediction_date config) i with
  | Some timestamp => Ok (pointAt avgPrice priceStd config timestamp i)
  | None => Throw InvalidTimeValue
  end.

(** [for (let i = ...; i < prediction_hours; i++) predictions.push(...)] with
    [n] iterations left. *)
Fixpoint forLoop (avgPrice priceStd : R) (config : Config) (n i : nat)
  (predictions : list Point.ForecastPoint)
  : Result (list Point.ForecastPoint) :=
  match n with
  | O => Ok predictions
  | S n' =>
      match iteration avgPrice priceStd config i with
      | Ok point =>
          forLoop avgPrice priceStd config n' (S i) (predictions ++ [point])
      | Throw e => Throw e
      end
  end.

Definition runPredictionAlgorithm (st : State) (config : Config)
  : Result PredictionResult :=
  if negb (isDataLoaded st) || Nat.eqb (length (powerMarketData st)) 0
  then Throw DataNotLoaded
  else
    let recentData := slice_last 168 (powerMarketData st) in
    let avgPrice := avgPrice recentData in
    let priceStd := priceStd recentData in
    (* an integer bound [h] lets the loop run max(h, 0) times *)
    let steps := Z.to_nat (prediction_hours config) in
    match forLoop avgPrice priceStd config steps 0 [] with
    | Throw e => Throw e
    | Ok predictions =>
        let avgPredictedPrice :=
          MathJS.div_length
            (fold_left (fun sum p => sum + Point.predicted_price p)
                       predictions 0)
            (length predictions) in
        Ok {| success := true;
              predictions := predictions;
              statistics :=
                {| Stats.average_price := avgPredictedPrice;
                   Stats.total_points := length predictions;
                   Stats.confidence_level := confidence_level config;
                   Stats.based_on_real_data := true;
                   Stats.real_data_points := length (powerMarketData st) |};
              accuracy := 0.85 + rnd steps * 0.1 |}
    end.

(** The point of step [i] when its date is valid, for stating what the loop
    pushes. *)
Definition pointOf (avgPrice priceStd : R) (config : Config) (i : nat)
  : Point.ForecastPoint :=
  pointAt avgPrice priceStd config
    (default 0%Z (timestampOf (prediction_date config) i)) i.

End WithEnvironment.

(** The dates of the steps [i, i + n) are all valid. *)
Definition stepsValid (config : Config) (i n : nat) : bool :=
  forallb (fun k => match timestampOf (prediction_date config) k with
                    | Some _ => true
                    | None => false
                    end)
          (seq i n).

End Forecast.

(** ** The quantities of the design notes

    The forecast procedure is described with [base_price], the arithmetic
    mean of the prices of the window, and [price_spread], their population
    standard deviation.  These two follow that description, not the code,
    which has its own sum for the mean and calls [math.std] for the
    deviation. *)

Module Described.

Open Scope R_scope.

Definition total (xs : list R) : R := fold_left Rplus xs 0.

Definition mean (xs : list R) : R := total xs / INR (length xs).


End Described.

(** ** The bid optimizer: runOptimizationAlgorithm *)

(** One element of [biddingSchedule]. *)
Module Bid.

Record BidDecision : Type := {
  time_period : Z;
  bid_price : R;
  bid_capacity : R;
  expected_profit : R;
  predicted_price : R
}.

End Bid.

Module Optimizer.

Open Scope R_scope.

Record CostParams : Type := {
  generationCost : R;
  upwardCost : R;
  downwardCost : R
}.

Record Config : Type := {
  cost_params : CostParams
}.

Inductive Strategy : Type := AGGRESSIVE | CONSERVATIVE.

Inductive RiskLevel : Type := LOW | MEDIUM | HIGH.

(** The returned object; [cost_parameters] is
    [optimization_info.cost_parameters]. *)
Record OptimizationResult : Type := {
  success : bool;
  expected_profit : R;
  optimal_capacity : JS.num;
  strategy : Strategy;
  risk_level : RiskLevel;
  bidding_schedule : list Bid.BidDecision;
  cost_parameters : CostParams
}.

(** The decision of the [forEach] callback for one prediction. *)
Definition bidFor (generationCost : R) (pred : Point.ForecastPoint)
  : Bid.BidDecision :=
  let predictedPrice := Point.predicted_price pred in
  let bidPrice := predictedPrice in
  let bidCapacity := 100 in
  let '(bidCapacity, bidPrice) :=
    if Rgt_dec predictedPrice (generationCost * 1.5) then
      (150, predictedPrice * 0.95)
    else if Rlt_dec predictedPrice (generationCost * 1.2) then
      (50, Rmax (generationCost * 1.1) (predictedPrice * 0.9))
    else (bidCapacity, bidPrice) in
  let expectedProfit := (bidPrice - generationCost) * bidCapacity in
  {| Bid.time_period := Point.timestamp pred;
     Bid.bid_price := bidPrice;
     Bid.bid_capacity := bidCapacity;
     Bid.expected_profit := expectedProfit;
     Bid.predicted_price := predictedPrice |}.

(** The callback on the two variables it updates, [totalProfit] and
    [biddingSchedule]. *)
Definition callback (generationCost : R)
  (acc : R * list Bid.BidDecision) (pred : Point.ForecastPoint)
  : R * list Bid.BidDecision :=
  let '(totalProfit, biddingSchedule) := acc in
  let decision := bidFor generationCost pred in
  (totalProfit + Bid.expected_profit decision, biddingSchedule ++ [decision]).

Definition riskOf (avgBidPrice avgPredictedPrice : JS.num) : RiskLevel :=
  let riskLevel := LOW in
  if MathJS.gt avgBidPrice (MathJS.mul avgPredictedPrice (JS.Num 1.1)) then HIGH
  else if MathJS.gt avgBidPrice (MathJS.mul avgPredictedPrice (JS.Num 1.05))
  then MEDIUM
  else riskLevel.

Definition runOptimizationAlgorithm
  (predictions : list Point.ForecastPoint) (config : Config)
  : Result OptimizationResult :=
  let generationCost := generationCost (cost_params config) in
  let '(totalProfit, biddingSchedule) :=
    fold_left (callback generationCost) predictions (0, []) in
  let avgBidPrice :=
    MathJS.div_length
      (fold_left (fun sum b => sum + Bid.bid_price b) biddingSchedule 0)
      (length biddingSchedule) in
  let avgPredictedPrice :=
    MathJS.div_length
      (fold_left (fun sum p => sum + Point.predicted_price p) predictions 0)
      (length predictions) in
  Ok {| success := true;
        expected_profit := totalProfit;
        optimal_capacity :=
          MathJS.div_length
            (fold_left (fun sum b => sum + Bid.bid_capacity b) biddingSchedule 0)
            (length biddingSchedule);
        strategy := if Rgt_dec totalProfit 0 then AGGRESSIVE else CONSERVATIVE;
        risk_level := riskOf avgBidPrice avgPredictedPrice;
        bidding_schedule := biddingSchedule;
        cost_parameters := cost_params config |}.

End Optimizer.

(** ** The decision rule under rounding

    The body of the [forEach] callback with every product and difference
    rounded by a function [fl], and with the constants of the source as the
    doubles they denote. *)

Module Rounded.

Open Scope R_scope.

Section WithRounding.

(** Rounding to the nearest double. *)
Variable fl : R -> R.

(** The doubles written [1.5], [1.2], [1.1], [0.9] and [0.95]. *)
Variables c1_5 c1_2 c1_1 c0_9 c0_95 : R.

Definition bidFor (generationCost : R) (pred : Point.ForecastPoint)
  : Bid.BidDecision :=
  let predictedPrice := Point.predicted_price pred in
  let bidPrice := predictedPrice in
  let bidCapacity := 100 in
  let '(bidCapacity, bidPrice) :=
    if Rgt_dec predictedPrice (fl (generationCost * c1_5)) then
      (150, fl (predictedPrice * c0_95))
    else if Rlt_dec predictedPrice (fl (generationCost * c1_2)) then
      (50, Rmax (fl (generationCost * c1_1)) (fl (predictedPrice * c0_9)))
    else (bidCapacity, bidPrice) in
  let expectedProfit := fl (fl (bidPrice - generationCost) * bidCapacity) in
  {| Bid.time_period := Point.timestamp pred;
     Bid.bid_price := bidPrice;
     Bid.bid_capacity := bidCapacity;
     Bid.expected_profit := expectedProfit;
     Bid.predicted_price := predictedPrice |}.

End WithRounding.

End Rounded.

(** ** The decision rule on binary64 floats

    The body of the [forEach] callback once more, with the arithmetic of the
    engine: every product and difference is rounded to the nearest double. *)

Module Doubles.

Import PrimFloat.

#[local] Set Warnings "-inexact-float".

Local Open Scope float_scope.

(** [Math.max(a, b)]: [NaN] if one argument is, and [+0] above [-0]. *)
Definition Math_max (a b : float) : float :=
  if is_nan a || is_nan b then nan
  else if a <? b then b
  else if b <? a then a
  else if is_zero a then a + b
  else a.

Record Decision : Type := {
  bid_price : float;
  bid_capacity : float;
  expected_profit : float
}.

Definition bidFor (generationCost predictedPrice : float) : Decision :=
  let bidPrice := predictedPrice in
  let bidCapacity := 100 in
  let '(bidCapacity, bidPrice) :=
    if generationCost * 1.5 <? predictedPrice then
      (150, predictedPrice * 0.95)
    else if predictedPrice <? generationCost * 1.2 then
      (50, Math_max (generationCost * 1.1) (predictedPrice * 0.9))
    else (bidCapacity, bidPrice) in
  let expectedProfit := (bidPrice - generationCost) * bidCapacity in
  {| bid_price := bidPrice;
     bid_capacity := bidCapacity;
     expected_profit := expectedProfit |}.

End Doubles.

(** ** The two POST routes *)

Module Routes.

(** What a handler sends: the result as JSON, status 400 for a missing
    argument, or status 500 with the message of the error caught. *)
Inductive Response (A : Type) : Type :=
| Json (a : A)
| Status400
| Status500 (e : Error).

Arguments Json {A} a.
Arguments Status400 {A}.
Arguments Status500 {A} e.

Definition respond {A : Type} (r : Result A) : Response A :=
  match r with
  | Ok a => Json a
  | Throw e => Status500 e
  end.

(** [app.post('/api/predict', ...)]: [config] is [None] when the body has
    none. *)
Definition predict (LocalTZA : Z -> Z) (rnd : nat -> R) (st : Store.State)
  (config : option Forecast.Config) : Response Forecast.PredictionResult :=
  match config with
  | None => Status400
  | Some config => respond (Forecast.runPredictionAlgorithm LocalTZA rnd st config)
  end.

(** [app.post('/api/optimize', ...)]: an array, even an empty one, is truthy. *)
Definition optimize (predictions : option (list Point.ForecastPoint))
  (config : option Optimizer.Config) : Response Optimizer.OptimizationResult :=
  match predictions, config with
  | Some predictions, Some config =>
      respond (Optimizer.runOptimizationAlgorithm predictions config)
  | _, _ => Status400
  end.

End Routes.

(** ** Arithmetic on numbers that may be [NaN] or infinite *)

Module JSMath.

Import JS.

Open Scope R_scope.

(** [a + b] *)
Definition add (a b : num) : num :=
  match a, b with
  | NaN, _ | _, NaN => NaN
  | Num x, Num y => Num (x + y)
  | Inf s, Inf t => if Bool.eqb s t then Inf s else NaN
  | Inf s, Num _ | Num _, Inf s => Inf s
  end.

(** [s / n] for an array length [n]. *)
Definition divLength (s : num) (n : nat) : num :=
  match s with
  | NaN => NaN
  | Inf b => Inf b
  | Num x => MathJS.div_length x n
  end.

(** [Math.max(a, b)] and [Math.min(a, b)]: [NaN] as soon as one is. *)
Definition max2 (a b : num) : num :=
  if isNaN a || isNaN b then NaN else if MathJS.gt b a then b else a.

Definition min2 (a b : num) : num :=
  if isNaN a || isNaN b then NaN else if MathJS.gt a b then b else a.

(** [Math.max(...xs)] and [Math.min(...xs)]: minus and plus infinity on no
    argument. *)
Definition Math_max (xs : list num) : num := fold_left max2 xs (Inf true).
Definition Math_min (xs : list num) : num := fold_left min2 xs (Inf false).

End JSMath.

(** ** The GET routes and the loads they trigger *)

Module StatusReply.

(** The data-dependent part of [database] in the reply of
    [/api/database/status]; [timeRange] is [null] or [{start, end}]. *)
Record DatabaseStatus : Type := {
  realDataRecords : nat;
  monthlyDistribution : gmap string nat;
  timeRange : option (JS.value * JS.value)
}.

End StatusReply.

Module Query.

(** [req.query] of [/api/historical-prices]; [None] for an absent key. *)
Record HistoryQuery : Type := {
  timeRange : option string;
  includePredictions : option string
}.

End Query.

Module PriceStats.

Record Statistics : Type := {
  average_price : JS.num;
  max_price : JS.num;
  min_price : JS.num;
  total_records : nat
}.

End PriceStats.

Module HistoryReply.

Record HistoricalPrices : Type := {
  success : bool;
  data : list Ingest.Item;
  statistics : PriceStats.Statistics;
  timeRange : string;
  includePredictions : bool
}.

End HistoryReply.

Module HealthReply.

Record Health : Type := {
  dataLoaded : bool;
  dataRecords : nat
}.

End HealthReply.

Module Server.

Import JS Ingest.

(** The globals when the process starts. *)
Definition initial : State :=
  {| powerMarketData := []; isDataLoaded := false |}.

(** [if (!isDataLoaded) { loadExcelData(); }] *)
Definition ensureLoaded (mayFile juneFile : Source) (st : State) : State :=
  if isDataLoaded st then st else fst (loadExcelData mayFile juneFile st).

(** The states of the globals over the life of the process: they are written
    by [loadExcelData] only (at start-up and from the two GET routes), with
    whatever the two files hold at that moment. *)
Inductive reachable : State -> Prop :=
| reach_initial : reachable initial
| reach_load (mayFile juneFile : Source) (st : State) :
    reachable st -> reachable (fst (loadExcelData mayFile juneFile st)).

(** [s.padStart(n, c)] for a one-character filler. *)
Definition padStart (s : string) (n : nat) (c : ascii) : string :=
  String.append (string_of_list_ascii (repeat c (n - String.length s))) s.

(** [String(m + 1)] for a month index [m]; [None] is [NaN]. *)
Definition monthNumber (m : option Z) : string :=
  match m with
  | None => "NaN"
  | Some k => DecimalString.NilZero.string_of_int (Z.to_int (k + 1))
  end.

(** [app.get('/api/health', ...)] *)
Definition health (st : State) : HealthReply.Health :=
  {| HealthReply.dataLoaded := isDataLoaded st;
     HealthReply.dataRecords := length (powerMarketData st) |}.

Section WithDates.

(** The time value of [new Date(v)], [None] for an invalid date, and the
    month index (0 to 11, local time) of a time value. *)
Variable dateValue : value -> option Z.
Variable monthFromTime : Z -> Z.

(** [`2025-${String(date.getMonth() + 1).padStart(2, '0')}`] *)
Definition monthKey (item : Item) : string :=
  String.append "2025-"
    (padStart (monthNumber (monthFromTime <$> dateValue (timestamp item)))
              2 "0").

(** [monthlyDistribution[monthKey] = (monthlyDistribution[monthKey] || 0) + 1] *)
Definition countMonth (monthlyDistribution : gmap string nat) (item : Item)
  : gmap string nat :=
  <[ monthKey item :=
       (default 0 (monthlyDistribution !! monthKey item) + 1)%nat ]>
    monthlyDistribution.

Definition databaseStatus (powerMarketData : list Item)
  : StatusReply.DatabaseStatus :=
  {| StatusReply.realDataRecords := length powerMarketData;
     StatusReply.monthlyDistribution := fold_left countMonth powerMarketData ∅;
     StatusReply.timeRange :=
       match powerMarketData with
       | [] => None
       | first :: _ =>
           Some (timestamp first, timestamp (List.last powerMarketData first))
       end |}.

(** [app.get('/api/database/status', ...)]: the state it leaves and the reply. *)
Definition status (mayFile juneFile : Source) (st : State)
  : State * StatusReply.DatabaseStatus :=
  let st := ensureLoaded mayFile juneFile st in
  (st, databaseStatus (powerMarketData st)).

(** The [switch] on the time range; [now] is the time value of [new Date()]. *)
Definition startTimeOf (now : Z) (timeRange : string) : Z :=
  if String.eqb timeRange "1d" then (now - 24 * 60 * 60 * 1000)%Z
  else if String.eqb timeRange "7d" then (now - 7 * 24 * 60 * 60 * 1000)%Z
  else if String.eqb timeRange "30d" then (now - 30 * 24 * 60 * 60 * 1000)%Z
  else 0%Z.

(** [item => new Date(item.timestamp) >= startTime]: false on an invalid
    date. *)
Definition since (startTime : Z) (item : Item) : bool :=
  match dateValue (timestamp item) with
  | Some t => (startTime <=? t)%Z
  | None => false
  end.

Definition historicalPrices (now : Z) (query : Query.HistoryQuery)
  (powerMarketData : list Item) : HistoryReply.HistoricalPrices :=
  let timeRange := default "1d"%string (Query.timeRange query) in
  let includePredictions :=
    default "false"%string (Query.includePredictions query) in
  let filteredData := powerMarketData in
  let filteredData :=
    if String.eqb timeRange "all" then filteredData
    else List.filter (since (startTimeOf now timeRange)) filteredData in
  let filteredData :=
    if (1000 <? length filteredData)%nat
    then Forecast.slice_last 1000 filteredData
    else filteredData in
  let prices := map price filteredData in
  {| HistoryReply.success := true;
     HistoryReply.data := filteredData;
     HistoryReply.statistics :=
       {| PriceStats.average_price :=
            JSMath.divLength (fold_left JSMath.add prices (Num 0))
                             (length prices);
          PriceStats.max_price := JSMath.Math_max prices;
          PriceStats.min_price := JSMath.Math_min prices;
          PriceStats.total_records := length filteredData |};
     HistoryReply.timeRange := timeRange;
     HistoryReply.includePredictions := String.eqb includePredictions "true" |}.

(** [app.get('/api/historical-prices', ...)] *)
Definition historical (mayFile juneFile : Source) (now : Z)
  (query : Query.HistoryQuery) (st : State)
  : State * HistoryReply.HistoricalPrices :=
  let st := ensureLoaded mayFile juneFile st in
  (st, historicalPrices now query (powerMarketData st)).

End WithDates.

End Server.

(** ** Concrete inputs used below *)

Module Examples.

Open Scope R_scope.

(** A row with a timestamp whose price text is not numeric. *)
Definition bad_price_row : Ingest.Row :=
  {[ "时间"%string := JS.VStr "2025-05-01 00:15";
     "电价"%string := JS.VStr "abc" ]}.

Definition obs (p : R) : Store.Observation :=
  {| Store.timestamp := JS.VStr "2025-06-30 23:45"; Store.price := p;
     Store.load := 0; Store.demand := 0; Store.supply := 0 |}.

Definition store_of (prices : list R) : Store.State :=
  {| Store.powerMarketData := map obs prices; Store.isDataLoaded := true |}.

(** The window of the spec's scenario A. *)
Definition scenario_store : Store.State := store_of [100; 110; 90; 105].

(** Ninety-nine observations at price 0 and one at 100: mean 1, standard
    deviation 10. *)
Definition spiky_store : Store.State := store_of (repeat 0 99 ++ [100]).

(** The process runs in UTC, or at UTC+8. *)
Definition utc : Z -> Z := fun _ => 0%Z.
Definition utc8 : Z -> Z := fun _ => 28800000%Z.

(** Every call of [Math.random()] returns [u]. *)
Definition draws (u : R) : nat -> R := fun _ => u.

(** 2025-07-01T00:00:00.000Z, a Tuesday. *)
Definition july1 : Z := 1751328000000%Z.

Definition request (hours : Z) (level : R) : Forecast.Config :=
  {| Forecast.prediction_date := Some july1;
     Forecast.prediction_hours := hours;
     Forecast.confidence_level := level |}.

(** A request starting at any date, valid or not. *)
Definition request_at (start : option Z) (hours : Z) (level : R)
  : Forecast.Config :=
  {| Forecast.prediction_date := start;
     Forecast.prediction_hours := hours;
     Forecast.confidence_level := level |}.

Definition point (t : Z) (p : R) : Point.ForecastPoint :=
  {| Point.timestamp := t; Point.predicted_price := p;
     Point.confidence_lower := p; Point.confidence_upper := p;
     Point.confidence_level := 0.95 |}.

(** The cost parameters the dashboard starts with are 375, 530 and 310. *)
Definition costs (g u d : R) : Optimizer.Config :=
  {| Optimizer.cost_params :=
       {| Optimizer.generationCost := g; Optimizer.upwardCost := u;
          Optimizer.downwardCost := d |} |}.

End Examples.

(** ** Concrete inputs for the routes *)

Module Fixtures.

Open Scope R_scope.

(** A row with a numeric price cell, and one whose preferred price column
    holds 0 beside an alias column. *)
Definition priced_row : Ingest.Row :=
  {[ "时间"%string := JS.VStr "2025-05-01 00:15";
     "电价"%string := JS.VNum (JS.Num 350) ]}.

Definition zero_priced_row : Ingest.Row :=
  {[ "时间"%string := JS.VStr "2025-06-30 23:45";
     "电价"%string := JS.VNum (JS.Num 0);
     "price"%string := JS.VNum (JS.Num 42) ]}.

Definition item (t : string) (p : R) : Ingest.Item :=
  {| Ingest.timestamp := JS.VStr t; Ingest.price := JS.Num p;
     Ingest.load := JS.Num 0; Ingest.demand := JS.Num 0;
     Ingest.supply := JS.Num 0 |}.

(** Two quarter-hours of the data set, in UTC, and what [new Date] makes of
    their text; any other value is taken as an invalid date. *)
Definition dateValue (v : JS.value) : option Z :=
  match v with
  | JS.VStr s =>
      if String.eqb s "2025-05-01 00:15" then Some 1746058500000%Z
      else if String.eqb s "2025-06-30 23:45" then Some 1751327100000%Z
      else None
  | _ => None
  end.

(** The month index of an instant of May or June 2025 (June starts at
    1748736000000). *)
Definition monthFromTime (t : Z) : Z :=
  if (t <? 1748736000000)%Z then 4%Z else 5%Z.

Definition two_items : list Ingest.Item :=
  [item "2025-05-01 00:15" 350; item "2025-06-30 23:45" 410].

Definition query (timeRange : string) : Query.HistoryQuery :=
  {| Query.timeRange := Some timeRange; Query.includePredictions := None |}.

(** One second after the last quarter-hour of June 2025. *)
Definition now : Z := 1751327101000%Z.

(** A week of observations at one price. *)
Definition flat_week (c : R) : list Store.Observation :=
  repeat (Examples.obs c) 168.

End Fixtures.

(** * Properties *)

(** ** Ingestion *)

Module IngestFacts.

Import JS Ingest.

Lemma num_or_zero_not_NaN (n : num) : isNaN (num_or n (Num 0)) = false.
Proof.
  unfold num_or. destruct n as [ | s | x]; simpl; try reflexivity.
  destruct (Req_dec_T x 0); reflexivity.
Qed.

(** [parseFloat] at the ends of the range of doubles, and after white space
    of more than one byte (U+00A0, then U+3000). *)
Example parseFloat_out_of_range :
  parseFloat (VStr "1e400") = Inf false /\
  parseFloat (VStr "-1.5e309") = Inf true /\
  parseFloat (VStr "1e-400") = Num 0 /\
  parseFloat (VStr "12.5e1元") = Num (IZR 125).
Proof. repeat split; reflexivity. Qed.

Example parseFloat_white_space :
  parseFloat
    (VStr (String (ascii_of_nat 194) (String (ascii_of_nat 160)
       (String (ascii_of_nat 227) (String (ascii_of_nat 128)
          (String (ascii_of_nat 128) " 42"))))))
  = Num (IZR 42).
Proof. reflexivity. Qed.

(** The price test of the filter never rejects: an item is kept exactly when
    its timestamp is truthy. *)
Lemma keep_normalize (row : Row) :
  keep (normalize row) = truthy (firstOf row "时间" "timestamp" "Time").
Proof.
  unfold keep, normalize; simpl. unfold numberOf.
  rewrite num_or_zero_not_NaN. apply andb_true_r.
Qed.

(** A price that does not parse is stored as 0. *)
Lemma unparseable_price_is_zero (row : Row) :
  parseFloat (firstOf row "电价" "price" "Price") = NaN ->
  price (normalize row) = Num 0.
Proof. intros H. simpl. unfold numberOf. rewrite H. reflexivity. Qed.

(** Every row with a truthy timestamp reaches the store, whatever its price
    cell holds. *)
Lemma load_keeps_timestamped (rows : list Row) (row : Row) (st : State) :
  In row rows ->
  truthy (firstOf row "时间" "timestamp" "Time") = true ->
  In (normalize row)
     (powerMarketData (fst (loadExcelData (Sheet rows) Absent st))).
Proof.
  intros Hin Ht. simpl. apply filter_In. split.
  - apply in_map, Hin.
  - rewrite keep_normalize. exact Ht.
Qed.

(** No stored price is [NaN]. *)
Lemma loaded_price_not_NaN (mayFile juneFile : Source) (st st' : State) (it : Item) :
  loadExcelData mayFile juneFile st = (st', true) ->
  In it (powerMarketData st') -> isNaN (price it) = false.
Proof.
  unfold loadExcelData. intros H Hin.
  destruct (readInto [] mayFile) as [a | ]; [ | discriminate].
  destruct (readInto a juneFile) as [b | ]; [ | discriminate].
  inversion H; subst st'; clear H. simpl in Hin.
  apply filter_In in Hin. destruct Hin as [Hin _].
  apply in_map_iff in Hin. destruct Hin as [row [<- _]].
  apply num_or_zero_not_NaN.
Qed.

Lemma finite_numberOf (row : Row) (a b c : string) :
  (forall s, numberOf row a b c <> Inf s) ->
  exists x, numberOf row a b c = Num x.
Proof.
  intros Hinf. pose proof (num_or_zero_not_NaN (parseFloat (firstOf row a b c))) as Hn.
  fold (numberOf row a b c) in Hn.
  destruct (numberOf row a b c) as [ | s | x].
  - discriminate Hn.
  - exfalso. exact (Hinf s eq_refl).
  - exists x. reflexivity.
Qed.

(** The loaded store, read as observations: defined as soon as no cell held
    an infinity. *)
Lemma observations_of_load (mayFile juneFile : Source) (st st' : State) :
  loadExcelData mayFile juneFile st = (st', true) ->
  Forall no_infinity (powerMarketData st') ->
  exists s, observations st' = Some s /\
    Store.isDataLoaded s = true /\
    length (Store.powerMarketData s) = length (powerMarketData st').
Proof.
  unfold loadExcelData. intros H Hfin.
  destruct (readInto [] mayFile) as [a | ]; [ | discriminate].
  destruct (readInto a juneFile) as [b | ]; [ | discriminate].
  inversion H; subst st'; clear H. simpl in Hfin.
  unfold observations. simpl.
  assert (Hsome : is_Some (mapM observe (List.filter keep (map normalize b)))).
  { apply mapM_is_Some_2. apply List.Forall_forall. intros it Hin.
    pose proof (proj1 (List.Forall_forall _ _) Hfin it Hin) as Hit.
    apply filter_In in Hin. destruct Hin as [Hin _].
    apply in_map_iff in Hin. destruct Hin as [row [<- _]].
    unfold no_infinity in Hit. simpl in Hit.
    destruct (finite_numberOf row "电价" "price" "Price") as [p Hp];
      [intros s; apply (Hit s) | ].
    destruct (finite_numberOf row "负荷" "load" "Load") as [l Hl];
      [intros s; apply (Hit s) | ].
    destruct (finite_numberOf row "需求" "demand" "Demand") as [d Hd];
      [intros s; apply (Hit s) | ].
    destruct (finite_numberOf row "供应" "supply" "Supply") as [u Hu];
      [intros s; apply (Hit s) | ].
    unfold compose, observe. simpl. rewrite Hp, Hl, Hd, Hu. simpl. eauto. }
  destruct Hsome as [obs Hobs]. rewrite Hobs. simpl.
  eexists. split; [reflexivity | ]. split; [reflexivity | ]. simpl.
  apply mapM_Some in Hobs. symmetry. eapply Forall2_length, Hobs.
Qed.

(** C6 (the code departs from it): a row with a timestamp and a price that
    does not parse as a number is not discarded by the load; it is stored
    with price 0. *)
Theorem load_keeps_unparseable_price :
  truthy (firstOf Examples.bad_price_row "时间" "timestamp" "Time") = true /\
  parseFloat (firstOf Examples.bad_price_row "电价" "price" "Price") = NaN /\
  loadExcelData (Sheet [Examples.bad_price_row]) Absent
      {| powerMarketData := []; isDataLoaded := false |}
  = ({| powerMarketData :=
          [ {| timestamp := VStr "2025-05-01 00:15"; price := Num 0;
               load := Num 0; demand := Num 0; supply := Num 0 |} ];
        isDataLoaded := true |}, true).
Proof. repeat split; reflexivity. Qed.

End IngestFacts.

(** ** The forecast *)

Module ForecastFacts.

Import Store Forecast.

Open Scope R_scope.

Lemma std_nonneg (xs : list R) : 0 <= MathJS.std xs.
Proof. apply sqrt_pos. Qed.

Lemma Rmax_0_nonneg (x : R) : 0 <= Rmax 0 x.
Proof. apply Rmax_l. Qed.

Lemma Rmax_0_mono (x y : R) : x <= y -> Rmax 0 x <= Rmax 0 y.
Proof. intros H. apply Rle_max_compat_l, H. Qed.

Lemma confidenceRange_nonneg (s c : R) :
  0 <= s -> c <= 1 -> 0 <= confidenceRange s c.
Proof. intros Hs Hc. unfold confidenceRange. nra. Qed.



(** *** The code's mean and deviation against the described ones *)






(** *** Dates *)

Lemma TimeClip_in_range (t : Z) :
  (- maxTimeValue <= t <= maxTimeValue)%Z -> TimeClip t = Some t.
Proof.
  intros H. unfold TimeClip.
  destruct (Z.leb_spec (Z.abs t) maxTimeValue); [reflexivity | lia].
Qed.

Lemma TimeClip_Some (t u : Z) :
  TimeClip t = Some u -> u = t /\ (- maxTimeValue <= t <= maxTimeValue)%Z.
Proof.
  unfold TimeClip.
  destruct (Z.leb_spec (Z.abs t) maxTimeValue); [ | discriminate].
  intros [= <-]. split; [reflexivity | lia].
Qed.

(** The dates of a horizon that starts and ends within the range are valid. *)
Lemma timestampOf_in_range (start h : Z) (i : nat) :
  (- maxTimeValue <= start)%Z ->
  (start + (h - 1) * (15 * 60 * 1000) <= maxTimeValue)%Z ->
  (Z.of_nat i < h)%Z ->
  timestampOf (Some start) i = Some (start + Z.of_nat i * (15 * 60 * 1000))%Z.
Proof.
  intros Hlo Hhi Hi. unfold timestampOf.
  rewrite TimeClip_in_range by nia. f_equal. lia.
Qed.

Lemma timestampOf_Some (date : option Z) (i : nat) (t : Z) :
  timestampOf date i = Some t ->
  exists start, date = Some start /\
    t = (start + Z.of_nat i * (15 * 60 * 1000))%Z /\
    (- maxTimeValue <= t <= maxTimeValue)%Z.
Proof.
  destruct date as [start | ]; [ | discriminate]. simpl.
  intros H. apply TimeClip_Some in H. destruct H as [-> H].
  exists start. split; [reflexivity | ]. split; lia.
Qed.

Lemma stepsValid_spec (config : Config) (n : nat) : forall i,
  stepsValid config i n = true <->
  (forall k, (i <= k < i + n)%nat ->
     exists t, timestampOf (prediction_date config) k = Some t).
Proof.
  unfold stepsValid. intros i. rewrite forallb_forall. split.
  - intros H k Hk. specialize (H k).
    destruct (timestampOf (prediction_date config) k) as [t | ].
    + exists t. reflexivity.
    + assert (false = true); [ | discriminate].
      apply H, in_seq. lia.
  - intros H k Hk. apply in_seq in Hk.
    destruct (H k) as [t ->]; [lia | reflexivity].
Qed.

Lemma forallb_false_seq (f : nat -> bool) (n : nat) : forall i0,
  forallb f (seq i0 n) = false ->
  exists i, (i0 <= i < i0 + n)%nat /\ f i = false.
Proof.
  induction n as [ | n IH]; intros i0 H; simpl in H; [discriminate | ].
  destruct (f i0) eqn:E.
  - destruct (IH (S i0) H) as [i [Hi Hf]]. exists i. split; [lia | exact Hf].
  - exists i0. split; [lia | exact E].
Qed.

Lemma forallb_forall_false_seq (f : nat -> bool) (n : nat) :
  forallb f (seq 0 n) = false -> exists i, (i < n)%nat /\ f i = false.
Proof.
  intros H. destruct (forallb_false_seq f n 0 H) as [i [Hi Hf]].
  exists i. split; [lia | exact Hf].
Qed.

Lemma stepsValid_in_range (config : Config) (start : Z) :
  prediction_date config = Some start ->
  (- maxTimeValue <= start)%Z ->
  (start + (prediction_hours config - 1) * (15 * 60 * 1000)
   <= maxTimeValue)%Z ->
  stepsValid config 0 (Z.to_nat (prediction_hours config)) = true.
Proof.
  intros Hd Hlo Hhi. apply stepsValid_spec. intros k Hk. rewrite Hd.
  eexists. apply timestampOf_in_range with (h := prediction_hours config);
    [exact Hlo | exact Hhi | lia].
Qed.

Lemma stepsValid_no_steps (config : Config) :
  (prediction_hours config <= 0)%Z ->
  stepsValid config 0 (Z.to_nat (prediction_hours config)) = true.
Proof.
  intros H. replace (Z.to_nat (prediction_hours config)) with 0%nat by lia.
  reflexivity.
Qed.

Section WithEnvironment.

Variable LocalTZA : Z -> Z.
Variable rnd : nat -> R.

Abbreviation forLoop := (Forecast.forLoop LocalTZA rnd).
Abbreviation iteration := (Forecast.iteration LocalTZA rnd).
Abbreviation stepPrice := (Forecast.stepPrice LocalTZA rnd).
Abbreviation pointAt := (Forecast.pointAt LocalTZA rnd).
Abbreviation pointOf := (Forecast.pointOf LocalTZA rnd).
Abbreviation runPredictionAlgorithm := (Forecast.runPredictionAlgorithm LocalTZA rnd).

(** *** The loop as a list *)

Lemma pointOf_valid a s config i t :
  timestampOf (prediction_date config) i = Some t ->
  pointOf a s config i = pointAt a s config t i.
Proof. intros H. unfold Forecast.pointOf. rewrite H. reflexivity. Qed.

(** The loop pushes the points of its steps in order, and throws at the
    first step whose date is invalid. *)
Lemma forLoop_spec a s config n : forall i acc,
  forLoop a s config n i acc
  = if stepsValid config i n
    then Ok (acc ++ map (pointOf a s config) (seq i n))
    else Throw InvalidTimeValue.
Proof.
  induction n as [ | n IH]; intros i acc.
  - simpl. now rewrite app_nil_r.
  - cbn [Forecast.forLoop]. unfold Forecast.iteration.
    unfold stepsValid. cbn [seq forallb map].
    destruct (timestampOf (prediction_date config) i) as [t | ] eqn:E.
    + rewrite IH. fold (stepsValid config (S i) n).
      rewrite (pointOf_valid a s config i t E), <- app_assoc. reflexivity.
    + reflexivity.
Qed.

Lemma points_nth a s config n k :
  (k < n)%nat ->
  nth_error (map (pointOf a s config) (seq 0 n)) k
  = Some (pointOf a s config k).
Proof.
  intros Hk. rewrite nth_error_map, nth_error_seq.
  destruct (Nat.ltb_spec k n); [reflexivity | lia].
Qed.

Lemma points_nth_inv a s config n k p :
  nth_error (map (pointOf a s config) (seq 0 n)) k = Some p ->
  (k < n)%nat /\ p = pointOf a s config k.
Proof.
  intros H.
  assert (Hk : (k < n)%nat).
  { assert (Hlt : (k < length (map (pointOf a s config) (seq 0 n)))%nat)
      by (apply nth_error_Some; congruence).
    rewrite length_map, length_seq in Hlt. exact Hlt. }
  split; [exact Hk | ]. rewrite points_nth in H by exact Hk. congruence.
Qed.

(** *** The outcomes of a call *)

(** With a loaded, non-empty store the call passes the check of the store. *)
Lemma run_with_data (st : State) (config : Config) :
  isDataLoaded st = true -> powerMarketData st <> [] ->
  runPredictionAlgorithm st config
  = let recentData := slice_last 168 (powerMarketData st) in
    let steps := Z.to_nat (prediction_hours config) in
    match forLoop (avgPrice recentData) (priceStd recentData) config steps 0 []
    with
    | Throw e => Throw e
    | Ok predictions =>
        Ok {| success := true;
              predictions := predictions;
              statistics :=
                {| Stats.average_price :=
                     MathJS.div_length
                       (fold_left (fun sum p => sum + Point.predicted_price p)
                                  predictions 0)
                       (length predictions);
                   Stats.total_points := length predictions;
                   Stats.confidence_level := confidence_level config;
                   Stats.based_on_real_data := true;
                   Stats.real_data_points := length (powerMarketData st) |};
              accuracy := 0.85 + rnd steps * 0.1 |}
    end.
Proof.
  intros Hl Hne. unfold Forecast.runPredictionAlgorithm. rewrite Hl.
  destruct (powerMarketData st) as [ | o os] eqn:E; [congruence | ].
  reflexivity.
Qed.

(** When the dates of all steps are valid it returns the points of the
    steps. *)
Lemma run_valid (st : State) (config : Config) :
  isDataLoaded st = true -> powerMarketData st <> [] ->
  stepsValid config 0 (Z.to_nat (prediction_hours config)) = true ->
  exists res, runPredictionAlgorithm st config = Ok res /\
    success res = true /\
    predictions res =
      map (pointOf (avgPrice (slice_last 168 (powerMarketData st)))
                   (priceStd (slice_last 168 (powerMarketData st))) config)
          (seq 0 (Z.to_nat (prediction_hours config))).
Proof.
  intros Hl Hne Hv. rewrite run_with_data by assumption. cbv zeta.
  rewrite forLoop_spec, Hv. eexists. split; [reflexivity | ].
  split; reflexivity.
Qed.

(** When one is not, it throws the RangeError. *)
Lemma run_invalid (st : State) (config : Config) :
  isDataLoaded st = true -> powerMarketData st <> [] ->
  stepsValid config 0 (Z.to_nat (prediction_hours config)) = false ->
  runPredictionAlgorithm st config = Throw InvalidTimeValue.
Proof.
  intros Hl Hne Hv. rewrite run_with_data by assumption. cbv zeta.
  rewrite forLoop_spec, Hv. reflexivity.
Qed.

(** Without loaded data the call throws. *)
Lemma run_not_loaded (st : State) (config : Config) :
  isDataLoaded st = false \/ powerMarketData st = [] ->
  runPredictionAlgorithm st config = Throw DataNotLoaded.
Proof.
  intros [H | H]; unfold Forecast.runPredictionAlgorithm; rewrite H.
  - reflexivity.
  - simpl. now rewrite orb_true_r.
Qed.

Lemma store_cases (st : State) :
  (isDataLoaded st = true /\ powerMarketData st <> []) \/
  (isDataLoaded st = false \/ powerMarketData st = []).
Proof.
  destruct (isDataLoaded st); [ | right; left; reflexivity].
  destruct (powerMarketData st); [right; right; reflexivity | ].
  left. split; [reflexivity | discriminate].
Qed.

(** What a result tells about the call. *)
Lemma run_Ok_inv (st : State) (config : Config) (res : PredictionResult) :
  runPredictionAlgorithm st config = Ok res ->
  isDataLoaded st = true /\ powerMarketData st <> [] /\
  stepsValid config 0 (Z.to_nat (prediction_hours config)) = true /\
  success res = true /\
  predictions res =
    map (pointOf (avgPrice (slice_last 168 (powerMarketData st)))
                 (priceStd (slice_last 168 (powerMarketData st))) config)
        (seq 0 (Z.to_nat (prediction_hours config))).
Proof.
  intros Hrun.
  destruct (store_cases st) as [[Hl Hne] | Hno].
  - destruct (stepsValid config 0 (Z.to_nat (prediction_hours config))) eqn:Hv.
    + destruct (run_valid st config Hl Hne Hv) as [res' [Hrun' [Hs Hp]]].
      assert (res' = res) by congruence. subst res'. auto.
    + rewrite (run_invalid st config Hl Hne Hv) in Hrun. discriminate.
  - rewrite (run_not_loaded st config Hno) in Hrun. discriminate.
Qed.

(** The point at position [i] of a result is the one of step [i], stamped
    with the start plus [i] quarters of an hour. *)
Lemma run_Ok_nth (st : State) (config : Config) (res : PredictionResult)
  (i : nat) (p : Point.ForecastPoint) :
  runPredictionAlgorithm st config = Ok res ->
  nth_error (predictions res) i = Some p ->
  (i < Z.to_nat (prediction_hours config))%nat /\
  timestampOf (prediction_date config) i = Some (Point.timestamp p) /\
  p = pointAt (avgPrice (slice_last 168 (powerMarketData st)))
              (priceStd (slice_last 168 (powerMarketData st))) config
              (Point.timestamp p) i.
Proof.
  intros Hrun Hi.
  destruct (run_Ok_inv st config res Hrun) as [_ [_ [Hv [_ Hp]]]].
  rewrite Hp in Hi. apply points_nth_inv in Hi. destruct Hi as [Hlt ->].
  split; [exact Hlt | ].
  destruct (proj1 (stepsValid_spec config _ 0) Hv i) as [t Ht]; [lia | ].
  rewrite (pointOf_valid _ _ _ _ _ Ht). simpl. split; [exact Ht | reflexivity].
Qed.

(** Scenario B of the design notes: before any load the forecast throws, and
    the route answers with status 500; a body without [config] gets 400. *)
Lemma run_initial (config : Config) :
  runPredictionAlgorithm Store.initial config = Throw DataNotLoaded.
Proof. apply run_not_loaded. left. reflexivity. Qed.

Lemma predict_route (st : State) (config : Config) :
  Routes.predict LocalTZA rnd st None = Routes.Status400 /\
  Routes.predict LocalTZA rnd Store.initial (Some config)
  = Routes.Status500 DataNotLoaded /\
  (isDataLoaded st = true -> powerMarketData st <> [] ->
   stepsValid config 0 (Z.to_nat (prediction_hours config)) = true ->
   exists res, Routes.predict LocalTZA rnd st (Some config) = Routes.Json res).
Proof.
  split; [reflexivity | ]. split.
  - unfold Routes.predict. rewrite run_initial. reflexivity.
  - intros Hl Hne Hv.
    destruct (run_valid st config Hl Hne Hv) as [res [Hrun _]].
    exists res. unfold Routes.predict. rewrite Hrun. reflexivity.
Qed.

(** *** Length and timestamps of the forecast *)

(** C3, as the code has it: with a loaded, non-empty store, a positive
    horizon and a valid start whose last step [start + (horizon - 1) × 15 min]
    is still within the range of dates, the forecast has exactly
    [prediction_hours] points; point [i] is stamped with the start plus [i]
    times 15 minutes, so the first one is at the start, and the stamps
    increase strictly. *)
Theorem forecast_length_and_timestamps (st : State) (config : Config)
  (start : Z) :
  isDataLoaded st = true -> powerMarketData st <> [] ->
  (0 < prediction_hours config)%Z ->
  prediction_date config = Some start ->
  (- maxTimeValue <= start)%Z ->
  (start + (prediction_hours config - 1) * (15 * 60 * 1000)
   <= maxTimeValue)%Z ->
  exists res, runPredictionAlgorithm st config = Ok res /\
    Z.of_nat (length (predictions res)) = prediction_hours config /\
    (exists p0, nth_error (predictions res) 0 = Some p0 /\
                Point.timestamp p0 = start) /\
    (forall i p, nth_error (predictions res) i = Some p ->
       Point.timestamp p = (start + Z.of_nat i * (15 * 60 * 1000))%Z) /\
    (forall i j p q, (i < j)%nat ->
       nth_error (predictions res) i = Some p ->
       nth_error (predictions res) j = Some q ->
       (Point.timestamp p < Point.timestamp q)%Z).
Proof.
  intros Hl Hne Hpos Hd Hlo Hhi.
  pose proof (stepsValid_in_range config start Hd Hlo Hhi) as Hv.
  destruct (run_valid st config Hl Hne Hv) as [res [Hrun [_ Hp]]].
  exists res. split; [exact Hrun | ].
  assert (Hstamp : forall i p, nth_error (predictions res) i = Some p ->
            Point.timestamp p = (start + Z.of_nat i * (15 * 60 * 1000))%Z).
  { intros i p Hi.
    destruct (run_Ok_nth st config res i p Hrun Hi) as [Hlt [Ht _]].
    rewrite Hd in Ht.
    rewrite (timestampOf_in_range start (prediction_hours config) i Hlo Hhi)
      in Ht by lia.
    congruence. }
  repeat split.
  - rewrite Hp, length_map, length_seq. lia.
  - destruct (nth_error (predictions res) 0) as [p0 | ] eqn:E0.
    + exists p0. split; [reflexivity | ].
      rewrite (Hstamp 0%nat p0 E0). lia.
    + apply nth_error_None in E0.
      rewrite Hp, length_map, length_seq in E0. lia.
  - exact Hstamp.
  - intros i j p q Hij Hi Hj.
    rewrite (Hstamp i p Hi), (Hstamp j q Hj). lia.
Qed.

(** *** Requests are not validated *)

(** C5, as the code has it: the horizon and the confidence level are not
    checked.  With a loaded, non-empty store, a horizon that is not positive
    is answered with a success result without points, whatever the start and
    the level; a positive horizon whose dates are all within the range is
    answered with a success result of that many points, each echoing the
    requested level, whatever it is; and the only failure is the RangeError
    of a date that is invalid or out of range, which needs a positive
    horizon. *)
Theorem forecast_accepts_every_request (st : State) (config : Config) :
  isDataLoaded st = true -> powerMarketData st <> [] ->
  ((prediction_hours config <= 0)%Z ->
   exists res, runPredictionAlgorithm st config = Ok res /\
     success res = true /\ predictions res = []) /\
  (forall start,
     prediction_date config = Some start ->
     (- maxTimeValue <= start)%Z ->
     (start + (prediction_hours config - 1) * (15 * 60 * 1000)
      <= maxTimeValue)%Z ->
     exists res, runPredictionAlgorithm st config = Ok res /\
       success res = true /\
       length (predictions res) = Z.to_nat (prediction_hours config) /\
       (forall p, In p (predictions res) ->
          Point.confidence_level p = confidence_level config)) /\
  (forall e, runPredictionAlgorithm st config = Throw e ->
     e = InvalidTimeValue /\ (0 < prediction_hours config)%Z /\
     exists i, (Z.of_nat i < prediction_hours config)%Z /\
       timestampOf (prediction_date config) i = None).
Proof.
  intros Hl Hne. split; [ | split].
  - intros Hle.
    destruct (run_valid st config Hl Hne (stepsValid_no_steps config Hle))
      as [res [Hrun [Hs Hp]]].
    exists res. split; [exact Hrun | ]. split; [exact Hs | ].
    rewrite Hp. replace (Z.to_nat (prediction_hours config)) with 0%nat by lia.
    reflexivity.
  - intros start Hd Hlo Hhi.
    destruct (run_valid st config Hl Hne
                (stepsValid_in_range config start Hd Hlo Hhi))
      as [res [Hrun [Hs Hp]]].
    exists res. split; [exact Hrun | ]. split; [exact Hs | ]. split.
    + rewrite Hp, length_map, length_seq. reflexivity.
    + intros p Hin. rewrite Hp in Hin. apply in_map_iff in Hin.
      destruct Hin as [i [<- _]]. reflexivity.
  - intros e Hrun.
    destruct (stepsValid config 0 (Z.to_nat (prediction_hours config))) eqn:Hv.
    + destruct (run_valid st config Hl Hne Hv) as [res [Hrun' _]]. congruence.
    + rewrite (run_invalid st config Hl Hne Hv) in Hrun.
      split; [congruence | ].
      assert (Hex : exists i, (i < Z.to_nat (prediction_hours config))%nat /\
                 timestampOf (prediction_date config) i = None).
      { unfold stepsValid in Hv.
        destruct (forallb_forall_false_seq
                    (fun k => match timestampOf (prediction_date config) k with
                              | Some _ => true | None => false end)
                    (Z.to_nat (prediction_hours config)) Hv) as [i [Hi Hf]].
        exists i. split; [exact Hi | ].
        destruct (timestampOf (prediction_date config) i);
          [discriminate | reflexivity]. }
      destruct Hex as [i [Hi Hnone]].
      split; [lia | ]. exists i. split; [lia | exact Hnone].
Qed.

(** *** Confidence bounds *)

(** What the bounds do satisfy: for a confidence level of at most 1, every
    returned point has [0 <= confidence_lower <= predicted_price], and
    [predicted_price <= confidence_upper] with [0 <= confidence_upper] when
    the price before clamping is not negative. *)
Theorem forecast_confidence_bounds (st : State) (config : Config)
  (res : PredictionResult) :
  runPredictionAlgorithm st config = Ok res ->
  confidence_level config <= 1 ->
  forall i p, nth_error (predictions res) i = Some p ->
    let raw := stepPrice (avgPrice (slice_last 168 (powerMarketData st)))
                         (priceStd (slice_last 168 (powerMarketData st)))
                         (Point.timestamp p) i in
    Point.predicted_price p = Rmax 0 raw /\
    0 <= Point.confidence_lower p <= Point.predicted_price p /\
    (0 <= raw ->
     Point.predicted_price p <= Point.confidence_upper p /\
     0 <= Point.confidence_upper p).
Proof.
  intros Hrun Hc i p Hi raw.
  destruct (run_Ok_nth st config res i p Hrun Hi) as [_ [_ Hp]].
  rewrite Hp. simpl. fold raw.
  set (s := priceStd (slice_last 168 (powerMarketData st))).
  assert (Hr : 0 <= confidenceRange s (confidence_level config))
    by (apply confidenceRange_nonneg; [apply std_nonneg | exact Hc]).
  split; [reflexivity | ]. split; [split | ].
  - apply Rmax_0_nonneg.
  - apply Rmax_0_mono. lra.
  - intros Hraw. rewrite Rmax_right by exact Hraw. lra.
Qed.

(** *** Peak hours *)


End WithEnvironment.

(** *** The forecast at concrete requests *)

Lemma INR_100 : INR 100 = 100.
Proof. rewrite INR_IZR_INZ. reflexivity. Qed.

Lemma spiky_window :
  slice_last 168 (powerMarketData Examples.spiky_store)
  = map Examples.obs (repeat 0 99 ++ [100]).
Proof. reflexivity. Qed.

Lemma spiky_avg : avgPrice (map Examples.obs (repeat 0 99 ++ [100])) = 1.
Proof.
  unfold avgPrice. rewrite length_map, length_app, repeat_length. simpl length.
  replace (99 + 1)%nat with 100%nat by reflexivity. rewrite INR_100.
  simpl. lra.
Qed.

Lemma spiky_std : priceStd (map Examples.obs (repeat 0 99 ++ [100])) = 10.
Proof.
  unfold priceStd, MathJS.std.
  replace (MathJS.variance _) with (10 * 10).
  - apply sqrt_square. lra.
  - unfold MathJS.variance. rewrite map_map. simpl map.
    set (xs := _ :: _).
    assert (Hlen : length xs = 100%nat) by reflexivity.
    rewrite Hlen, INR_100.
    assert (Hm : MathJS.sum xs / 100 = 1)
      by (unfold MathJS.sum, xs; simpl; lra).
    rewrite Hm. unfold xs. simpl fold_left. lra.
Qed.

(** The requests of the examples start at a valid date. *)
Lemma request_valid (hours : Z) (level : R) :
  (hours <= 1000)%Z ->
  stepsValid (Examples.request hours level) 0
    (Z.to_nat (prediction_hours (Examples.request hours level))) = true.
Proof.
  intros H.
  destruct (Z.le_gt_cases hours 0) as [Hle | Hgt].
  - apply stepsValid_no_steps. exact Hle.
  - apply stepsValid_in_range with (start := Examples.july1);
      [reflexivity | unfold maxTimeValue, Examples.july1; lia | ].
    simpl. unfold maxTimeValue, Examples.july1. lia.
Qed.

Lemma request_first_date (hours : Z) (level : R) :
  timestampOf (prediction_date (Examples.request hours level)) 0
  = Some Examples.july1.
Proof. reflexivity. Qed.

(** Midnight UTC on Tuesday 2025-07-01 is off-peak. *)
Lemma timeFactor_utc_july1 :
  timeFactor (getHours Examples.utc Examples.july1)
             (getDay Examples.utc Examples.july1) = 1.
Proof.
  replace (getHours _ _) with 0%Z by reflexivity.
  replace (getDay _ _) with 2%Z by reflexivity.
  unfold timeFactor. simpl. lra.
Qed.

Lemma scenario_avg :
  avgPrice (slice_last 168 (powerMarketData Examples.scenario_store)) = 101.25.
Proof. unfold avgPrice. simpl. lra. Qed.

(** 08:00 at UTC+8 on that day is in the morning peak. *)
Lemma timeFactor_utc8_july1 :
  timeFactor (getHours Examples.utc8 Examples.july1)
             (getDay Examples.utc8 Examples.july1) = 1.2.
Proof.
  replace (getHours _ _) with 8%Z by reflexivity.
  replace (getDay _ _) with 2%Z by reflexivity.
  unfold timeFactor. simpl. lra.
Qed.

(** Scenario A of the design notes: window 100, 110, 90, 105, a draw of 0.5
    (no noise), one point in the morning peak of a working day: 121.5. *)
Example scenario_A_forecast :
  exists res p,
    Forecast.runPredictionAlgorithm Examples.utc8 (Examples.draws 0.5)
      Examples.scenario_store (Examples.request 1 0.95) = Ok res /\
    predictions res = [p] /\
    Point.timestamp p = Examples.july1 /\
    Point.predicted_price p = 121.5.
Proof.
  destruct (run_valid Examples.utc8 (Examples.draws 0.5)
              Examples.scenario_store (Examples.request 1 0.95))
    as [res [Hrun [_ Hp]]];
    [reflexivity | discriminate | apply request_valid; lia | ].
  rewrite scenario_avg in Hp. cbn [prediction_hours Examples.request] in Hp.
  change (Z.to_nat 1) with 1%nat in Hp. cbn [seq map] in Hp.
  rewrite (pointOf_valid _ _ _ _ _ _ Examples.july1
             (request_first_date 1 0.95)) in Hp.
  eexists res, _. split; [exact Hrun | ]. split; [exact Hp | ].
  split; [reflexivity | ].
  simpl. unfold Forecast.stepPrice.
  rewrite timeFactor_utc8_july1.
  unfold predictedPrice, Examples.draws.
  rewrite Rmax_right; lra.
Qed.

(** C1 (the code departs from it): on a window of non-negative prices with
    mean 1 and deviation 10, at confidence level 0.995 and draw 0.1, the price
    before clamping is -0.2 and the range 0.1.  The price and the lower bound
    are clamped at 0, the upper bound is not: the point returned has
    [predicted_price = 0] and [confidence_upper = -0.1], below the price and
    below 0. *)
Theorem forecast_upper_below_clamped_price :
  exists res p,
    Forecast.runPredictionAlgorithm Examples.utc (Examples.draws 0.1)
      Examples.spiky_store (Examples.request 1 0.995) = Ok res /\
    predictions res = [p] /\
    Point.predicted_price p = 0 /\
    Point.confidence_lower p = 0 /\
    Point.confidence_upper p = - 0.1 /\
    ~ (Point.confidence_upper p >= Point.predicted_price p) /\
    ~ (Point.confidence_upper p >= 0).
Proof.
  destruct (run_valid Examples.utc (Examples.draws 0.1)
              Examples.spiky_store (Examples.request 1 0.995))
    as [res [Hrun [_ Hp]]];
    [reflexivity | discriminate | apply request_valid; lia | ].
  rewrite spiky_window, spiky_avg, spiky_std in Hp.
  cbn [prediction_hours Examples.request] in Hp.
  change (Z.to_nat 1) with 1%nat in Hp. cbn [seq map] in Hp.
  rewrite (pointOf_valid _ _ _ _ _ _ Examples.july1
             (request_first_date 1 0.995)) in Hp.
  eexists res, _. split; [exact Hrun | ]. split; [exact Hp | ].
  simpl. unfold Forecast.stepPrice.
  rewrite timeFactor_utc_july1.
  unfold predictedPrice, confidenceRange, Examples.draws. simpl.
  assert (H : Rmax 0 (1 * 1 + (0.1 - 0.5) * 10 * 0.3) = 0)
    by (apply Rmax_left; lra).
  assert (H' : Rmax 0 (1 * 1 + (0.1 - 0.5) * 10 * 0.3 - 10 * (1 - 0.995) * 2) = 0)
    by (apply Rmax_left; lra).
  rewrite H, H'. repeat split; lra.
Qed.

Lemma forecast_confidence_bounds_witness :
  exists res,
    Forecast.runPredictionAlgorithm Examples.utc8 (Examples.draws 0.5)
      Examples.scenario_store (Examples.request 4 0.95) = Ok res /\
    confidence_level (Examples.request 4 0.95) <= 1 /\
    length (predictions res) = 4%nat /\
    forall i p, nth_error (predictions res) i = Some p ->
      0 <= Point.confidence_lower p <= Point.predicted_price p.
Proof.
  destruct (run_valid Examples.utc8 (Examples.draws 0.5)
              Examples.scenario_store (Examples.request 4 0.95))
    as [res [Hrun [_ Hp]]];
    [reflexivity | discriminate | apply request_valid; lia | ].
  assert (Hc : confidence_level (Examples.request 4 0.95) <= 1)
    by (simpl; lra).
  exists res. split; [exact Hrun | ]. split; [exact Hc | ]. split.
  - rewrite Hp, length_map, length_seq. reflexivity.
  - intros i p Hi.
    exact (proj1 (proj2 (forecast_confidence_bounds Examples.utc8
             (Examples.draws 0.5) Examples.scenario_store
             (Examples.request 4 0.95) res Hrun Hc i p Hi))).
Defined.

(** C3 fails on the code at the end of the range of dates: a request for two
    points starting at the last valid instant, 8640000000000000 ms after the
    epoch, is not answered with two points.  The date of the second step is
    invalid and [toISOString()] throws a RangeError. *)
Lemma forecast_throws_at_end_of_date_range :
  isDataLoaded Examples.scenario_store = true /\
  powerMarketData Examples.scenario_store <> [] /\
  (0 < prediction_hours
         (Examples.request_at (Some maxTimeValue) 2 0.95))%Z /\
  Forecast.runPredictionAlgorithm Examples.utc8 (Examples.draws 0.5)
    Examples.scenario_store (Examples.request_at (Some maxTimeValue) 2 0.95)
  = Throw InvalidTimeValue /\
  Forecast.runPredictionAlgorithm Examples.utc8 (Examples.draws 0.5)
    Examples.scenario_store (Examples.request_at None 1 0.95)
  = Throw InvalidTimeValue.
Proof.
  split; [reflexivity | ]. split; [discriminate | ].
  split; [simpl; lia | ]. split.
  - apply run_invalid; [reflexivity | discriminate | reflexivity].
  - apply run_invalid; [reflexivity | discriminate | reflexivity].
Qed.

Lemma forecast_length_and_timestamps_witness :
  isDataLoaded Examples.scenario_store = true /\
  powerMarketData Examples.scenario_store <> [] /\
  (0 < prediction_hours (Examples.request 96 0.95))%Z /\
  prediction_date (Examples.request 96 0.95) = Some Examples.july1 /\
  (- maxTimeValue <= Examples.july1)%Z /\
  (Examples.july1
   + (prediction_hours (Examples.request 96 0.95) - 1) * (15 * 60 * 1000)
   <= maxTimeValue)%Z /\
  exists res,
    Forecast.runPredictionAlgorithm Examples.utc8 (Examples.draws 0.5)
      Examples.scenario_store (Examples.request 96 0.95) = Ok res /\
    Z.of_nat (length (predictions res)) = 96%Z.
Proof.
  assert (Hl : isDataLoaded Examples.scenario_store = true) by reflexivity.
  assert (Hne : powerMarketData Examples.scenario_store <> [])
    by (simpl; discriminate).
  assert (Hpos : (0 < prediction_hours (Examples.request 96 0.95))%Z)
    by (simpl; lia).
  assert (Hd : prediction_date (Examples.request 96 0.95)
               = Some Examples.july1) by reflexivity.
  assert (Hlo : (- maxTimeValue <= Examples.july1)%Z)
    by (unfold maxTimeValue, Examples.july1; lia).
  assert (Hhi : (Examples.july1
                 + (prediction_hours (Examples.request 96 0.95) - 1)
                   * (15 * 60 * 1000) <= maxTimeValue)%Z)
    by (simpl; unfold maxTimeValue, Examples.july1; lia).
  split; [exact Hl | ]. split; [exact Hne | ]. split; [exact Hpos | ].
  split; [exact Hd | ]. split; [exact Hlo | ]. split; [exact Hhi | ].
  destruct (forecast_length_and_timestamps Examples.utc8 (Examples.draws 0.5)
              Examples.scenario_store (Examples.request 96 0.95)
              Examples.july1 Hl Hne Hpos Hd Hlo Hhi)
    as [res [Hrun [Hlen _]]].
  exists res. split; [exact Hrun | exact Hlen].
Defined.

(** C5 fails on the code: a horizon of 0, a negative horizon and a confidence
    level of 1.5 are all answered with a success result. *)
Lemma forecast_answers_invalid_requests :
  (exists res,
     Forecast.runPredictionAlgorithm Examples.utc8 (Examples.draws 0.5)
       Examples.scenario_store (Examples.request 0 0.95) = Ok res /\
     success res = true /\ predictions res = []) /\
  (exists res,
     Forecast.runPredictionAlgorithm Examples.utc8 (Examples.draws 0.5)
       Examples.scenario_store (Examples.request (-3) 0.95) = Ok res /\
     success res = true /\ predictions res = []) /\
  (exists res,
     Forecast.runPredictionAlgorithm Examples.utc8 (Examples.draws 0.5)
       Examples.scenario_store (Examples.request 1 1.5) = Ok res /\
     success res = true /\ length (predictions res) = 1%nat).
Proof.
  repeat split.
  - destruct (run_valid Examples.utc8 (Examples.draws 0.5)
                Examples.scenario_store (Examples.request 0 0.95))
      as [res [Hrun [Hs Hp]]];
      [reflexivity | discriminate | apply request_valid; lia | ].
    exists res. repeat split; assumption.
  - destruct (run_valid Examples.utc8 (Examples.draws 0.5)
                Examples.scenario_store (Examples.request (-3) 0.95))
      as [res [Hrun [Hs Hp]]];
      [reflexivity | discriminate | apply request_valid; lia | ].
    exists res. repeat split; assumption.
  - destruct (run_valid Examples.utc8 (Examples.draws 0.5)
                Examples.scenario_store (Examples.request 1 1.5))
      as [res [Hrun [Hs Hp]]];
      [reflexivity | discriminate | apply request_valid; lia | ].
    exists res. repeat split; try assumption.
    rewrite Hp. reflexivity.
Qed.

(** An invalid start with a negative horizon and a level of 1.5 is answered
    with a success result without points. *)
Lemma forecast_accepts_every_request_witness :
  isDataLoaded Examples.scenario_store = true /\
  powerMarketData Examples.scenario_store <> [] /\
  exists res,
    Forecast.runPredictionAlgorithm Examples.utc8 (Examples.draws 0.5)
      Examples.scenario_store (Examples.request_at None (-3) 1.5) = Ok res /\
    success res = true /\ predictions res = [].
Proof.
  assert (Hl : isDataLoaded Examples.scenario_store = true) by reflexivity.
  assert (Hne : powerMarketData Examples.scenario_store <> [])
    by (simpl; discriminate).
  split; [exact Hl | ]. split; [exact Hne | ].
  destruct (forecast_accepts_every_request Examples.utc8 (Examples.draws 0.5)
              Examples.scenario_store (Examples.request_at None (-3) 1.5)
              Hl Hne)
    as [Hnone _].
  apply Hnone. simpl. lia.
Defined.


End ForecastFacts.

(** ** The bid optimizer *)

Module OptimizerFacts.

Import Optimizer.

Open Scope R_scope.

(** *** The traversal as a list *)

Lemma callback_fold (g : R) (predictions : list Point.ForecastPoint) :
  forall totalProfit biddingSchedule,
    fold_left (callback g) predictions (totalProfit, biddingSchedule)
    = (fold_left Rplus
         (map (fun p => Bid.expected_profit (bidFor g p)) predictions)
         totalProfit,
       biddingSchedule ++ map (bidFor g) predictions).
Proof.
  induction predictions as [ | p ps IH]; intros t sched; simpl.
  - now rewrite app_nil_r.
  - rewrite IH, <- app_assoc. reflexivity.
Qed.

Lemma fold_left_Rplus_shift (xs : list R) : forall a,
  fold_left Rplus xs a = a + fold_right Rplus 0 xs.
Proof.
  induction xs as [ | x xs IH]; intros a; simpl.
  - lra.
  - rewrite IH. lra.
Qed.

(** The call always returns; its schedule is the list of the decisions and its
    profit their accumulated sum. *)
Lemma run_returns (predictions : list Point.ForecastPoint) (config : Config) :
  let g := generationCost (cost_params config) in
  exists res, runOptimizationAlgorithm predictions config = Ok res /\
    success res = true /\
    bidding_schedule res = map (bidFor g) predictions /\
    expected_profit res
    = fold_left Rplus (map (fun p => Bid.expected_profit (bidFor g p)) predictions) 0 /\
    strategy res
    = (if Rgt_dec (expected_profit res) 0 then AGGRESSIVE else CONSERVATIVE) /\
    cost_parameters res = cost_params config.
Proof.
  intros g. unfold runOptimizationAlgorithm. fold g.
  rewrite callback_fold. simpl.
  eexists. split; [reflexivity | ]. simpl. repeat split.
Qed.

(** The three cases of the rule. *)
Lemma bidFor_high (g : R) (pred : Point.ForecastPoint) :
  Point.predicted_price pred > g * 1.5 ->
  Bid.bid_capacity (bidFor g pred) = 150 /\
  Bid.bid_price (bidFor g pred) = Point.predicted_price pred * 0.95.
Proof.
  intros H. unfold bidFor.
  destruct (Rgt_dec _ _) as [_ | N]; [ | contradiction].
  split; reflexivity.
Qed.

Lemma bidFor_low (g : R) (pred : Point.ForecastPoint) :
  ~ Point.predicted_price pred > g * 1.5 ->
  Point.predicted_price pred < g * 1.2 ->
  Bid.bid_capacity (bidFor g pred) = 50 /\
  Bid.bid_price (bidFor g pred)
  = Rmax (g * 1.1) (Point.predicted_price pred * 0.9).
Proof.
  intros H1 H2. unfold bidFor.
  destruct (Rgt_dec _ _) as [Y | _]; [contradiction | ].
  destruct (Rlt_dec _ _) as [_ | N]; [ | contradiction].
  split; reflexivity.
Qed.

Lemma bidFor_default (g : R) (pred : Point.ForecastPoint) :
  ~ Point.predicted_price pred > g * 1.5 ->
  ~ Point.predicted_price pred < g * 1.2 ->
  Bid.bid_capacity (bidFor g pred) = 100 /\
  Bid.bid_price (bidFor g pred) = Point.predicted_price pred.
Proof.
  intros H1 H2. unfold bidFor.
  destruct (Rgt_dec _ _) as [Y | _]; [contradiction | ].
  destruct (Rlt_dec _ _) as [Y | _]; [contradiction | ].
  split; reflexivity.
Qed.

Lemma bidFor_profit (g : R) (pred : Point.ForecastPoint) :
  Bid.expected_profit (bidFor g pred)
  = (Bid.bid_price (bidFor g pred) - g) * Bid.bid_capacity (bidFor g pred).
Proof.
  unfold bidFor.
  destruct (Rgt_dec _ _); [reflexivity | ].
  destruct (Rlt_dec _ _); reflexivity.
Qed.

Lemma bidFor_echo (g : R) (pred : Point.ForecastPoint) :
  Bid.time_period (bidFor g pred) = Point.timestamp pred /\
  Bid.predicted_price (bidFor g pred) = Point.predicted_price pred.
Proof.
  unfold bidFor.
  destruct (Rgt_dec _ _); [split; reflexivity | ].
  destruct (Rlt_dec _ _); split; reflexivity.
Qed.

(** Scenario A, continued: at generation cost 100 the price 121.5 is in
    neither branch, so the bid is 100 MW at 121.5. *)
Example scenario_A_bid :
  bidFor 100 (Examples.point Examples.july1 121.5)
  = {| Bid.time_period := Examples.july1; Bid.bid_price := 121.5;
       Bid.bid_capacity := 100; Bid.expected_profit := (121.5 - 100) * 100;
       Bid.predicted_price := 121.5 |}.
Proof.
  unfold bidFor. simpl.
  destruct (Rgt_dec 121.5 (100 * 1.5)); [lra | ].
  destruct (Rlt_dec 121.5 (100 * 1.2)); [lra | ]. reflexivity.
Qed.

(** *** The decision rule *)

(** C2: in the returned schedule the decision for each prediction follows the
    rule: above 1.5 times the generation cost, capacity 150 at 0.95 of the
    price; otherwise below 1.2 times the cost, capacity 50 at the larger of
    1.1 times the cost and 0.9 of the price; otherwise capacity 100 at the
    price. *)
Theorem optimizer_decision_rule
  (predictions : list Point.ForecastPoint) (config : Config) :
  let g := generationCost (cost_params config) in
  exists res, runOptimizationAlgorithm predictions config = Ok res /\
    Forall2 (fun pred d =>
      let price := Point.predicted_price pred in
      Bid.time_period d = Point.timestamp pred /\
      Bid.predicted_price d = price /\
      (price > g * 1.5 ->
         Bid.bid_capacity d = 150 /\ Bid.bid_price d = price * 0.95) /\
      (~ price > g * 1.5 -> price < g * 1.2 ->
         Bid.bid_capacity d = 50 /\
         Bid.bid_price d = Rmax (g * 1.1) (price * 0.9)) /\
      (~ price > g * 1.5 -> ~ price < g * 1.2 ->
         Bid.bid_capacity d = 100 /\ Bid.bid_price d = price))
    predictions (bidding_schedule res).
Proof.
  intros g.
  destruct (run_returns predictions config) as [res [Hrun [_ [Hs _]]]].
  exists res. split; [exact Hrun | ]. rewrite Hs. fold g.
  clear Hrun Hs res.
  induction predictions as [ | p ps IH]; simpl; constructor.
  - destruct (bidFor_echo g p) as [Ht Hp].
    split; [exact Ht | ]. split; [exact Hp | ].
    split; [apply bidFor_high | ].
    split; [apply bidFor_low | apply bidFor_default].
  - exact IH.
Qed.

(** *** Profit, total and strategy *)

(** C7: each decision's expected profit is
    [(bid_price - generationCost) * bid_capacity], the returned profit is the
    sum of the decisions' expected profits, and the strategy is AGGRESSIVE
    when that sum is positive and CONSERVATIVE otherwise.  This holds for
    every sequence of predictions, so for every non-empty one. *)
Theorem optimizer_profit_accounting
  (predictions : list Point.ForecastPoint) (config : Config) :
  let g := generationCost (cost_params config) in
  exists res, runOptimizationAlgorithm predictions config = Ok res /\
    length (bidding_schedule res) = length predictions /\
    Forall (fun d =>
      Bid.expected_profit d = (Bid.bid_price d - g) * Bid.bid_capacity d)
      (bidding_schedule res) /\
    expected_profit res
    = fold_right Rplus 0 (map Bid.expected_profit (bidding_schedule res)) /\
    strategy res
    = (if Rgt_dec (fold_right Rplus 0
                     (map Bid.expected_profit (bidding_schedule res))) 0
       then AGGRESSIVE else CONSERVATIVE).
Proof.
  intros g.
  destruct (run_returns predictions config)
    as [res [Hrun [_ [Hs [Hp [Hst _]]]]]].
  fold g in Hs, Hp.
  assert (Hsum : expected_profit res
            = fold_right Rplus 0 (map Bid.expected_profit (bidding_schedule res))).
  { rewrite Hp, Hs, fold_left_Rplus_shift, map_map. lra. }
  exists res. split; [exact Hrun | ]. split; [ | split; [ | split]].
  - rewrite Hs. apply length_map.
  - rewrite Hs. apply List.Forall_forall. intros d Hd.
    apply in_map_iff in Hd. destruct Hd as [p [<- _]]. apply bidFor_profit.
  - exact Hsum.
  - rewrite <- Hsum. exact Hst.
Qed.

(** *** The regulation costs are inert *)

(** C9: two calls on the same predictions with the same generation cost return
    the same schedule, total profit, strategy and risk level (and the same
    average capacity), whatever their upward and downward costs; each result
    echoes its own cost parameters. *)
Theorem optimizer_ignores_regulation_costs
  (predictions : list Point.ForecastPoint) (c1 c2 : Config) :
  generationCost (cost_params c1) = generationCost (cost_params c2) ->
  exists r1 r2,
    runOptimizationAlgorithm predictions c1 = Ok r1 /\
    runOptimizationAlgorithm predictions c2 = Ok r2 /\
    bidding_schedule r1 = bidding_schedule r2 /\
    expected_profit r1 = expected_profit r2 /\
    strategy r1 = strategy r2 /\
    risk_level r1 = risk_level r2 /\
    optimal_capacity r1 = optimal_capacity r2 /\
    cost_parameters r1 = cost_params c1 /\
    cost_parameters r2 = cost_params c2.
Proof.
  intros Hg. unfold runOptimizationAlgorithm. rewrite Hg.
  destruct (fold_left _ predictions (0, [])) as [totalProfit biddingSchedule].
  eexists. eexists. repeat split.
Qed.

Lemma optimizer_ignores_regulation_costs_witness :
  generationCost (cost_params (Examples.costs 375 530 310))
  = generationCost (cost_params (Examples.costs 375 0 999)) /\
  exists r1 r2,
    runOptimizationAlgorithm [Examples.point Examples.july1 400]
      (Examples.costs 375 530 310) = Ok r1 /\
    runOptimizationAlgorithm [Examples.point Examples.july1 400]
      (Examples.costs 375 0 999) = Ok r2 /\
    bidding_schedule r1 = bidding_schedule r2 /\
    expected_profit r1 = expected_profit r2.
Proof.
  assert (Hg : generationCost (cost_params (Examples.costs 375 530 310))
               = generationCost (cost_params (Examples.costs 375 0 999)))
    by reflexivity.
  split; [exact Hg | ].
  destruct (optimizer_ignores_regulation_costs
              [Examples.point Examples.july1 400]
              (Examples.costs 375 530 310) (Examples.costs 375 0 999) Hg)
    as [r1 [r2 [H1 [H2 [Hs [Hp _]]]]]].
  exists r1, r2. repeat split; assumption.
Defined.

(** *** The low-price branch protects the margin *)

(** C10, as the code has it: with a non-negative generation cost, a
    prediction priced below 1.2 times the cost gets capacity 50 and a bid of
    at least 1.1 times the cost, and its expected profit
    [(bid_price - generationCost) * 50] is not negative. *)
Theorem low_price_margin_protected
  (predictions : list Point.ForecastPoint) (config : Config)
  (i : nat) (pred : Point.ForecastPoint) :
  let g := generationCost (cost_params config) in
  0 <= g ->
  nth_error predictions i = Some pred ->
  Point.predicted_price pred < g * 1.2 ->
  exists res d, runOptimizationAlgorithm predictions config = Ok res /\
    nth_error (bidding_schedule res) i = Some d /\
    Bid.bid_capacity d = 50 /\
    Bid.bid_price d = Rmax (g * 1.1) (Point.predicted_price pred * 0.9) /\
    Bid.bid_price d >= g * 1.1 /\
    Bid.expected_profit d = (Bid.bid_price d - g) * 50 /\
    Bid.expected_profit d >= 0.
Proof.
  intros g Hg Hi Hlow.
  destruct (run_returns predictions config) as [res [Hrun [_ [Hs _]]]].
  fold g in Hs.
  exists res, (bidFor g pred). split; [exact Hrun | ]. split.
  { rewrite Hs, nth_error_map, Hi. reflexivity. }
  assert (Hnot : ~ Point.predicted_price pred > g * 1.5) by lra.
  destruct (bidFor_low g pred Hnot Hlow) as [Hc Hb].
  assert (Hmin : g * 1.1 <= Bid.bid_price (bidFor g pred))
    by (rewrite Hb; apply Rmax_l).
  assert (Hprofit : Bid.expected_profit (bidFor g pred)
                    = (Bid.bid_price (bidFor g pred) - g) * 50)
    by (rewrite bidFor_profit, Hc; reflexivity).
  split; [exact Hc | ]. split; [exact Hb | ]. split; [lra | ].
  split; [exact Hprofit | ]. lra.
Qed.

Lemma low_price_margin_protected_witness :
  0 <= generationCost (cost_params (Examples.costs 375 530 310)) /\
  Point.predicted_price (Examples.point Examples.july1 300)
    < generationCost (cost_params (Examples.costs 375 530 310)) * 1.2 /\
  exists res d,
    runOptimizationAlgorithm [Examples.point Examples.july1 300]
      (Examples.costs 375 530 310) = Ok res /\
    nth_error (bidding_schedule res) 0 = Some d /\
    Bid.bid_capacity d = 50 /\
    Bid.bid_price d >= 375 * 1.1 /\
    Bid.expected_profit d >= 0.
Proof.
  assert (Hg : 0 <= generationCost (cost_params (Examples.costs 375 530 310)))
    by (simpl; lra).
  assert (Hlow : Point.predicted_price (Examples.point Examples.july1 300)
                 < generationCost (cost_params (Examples.costs 375 530 310)) * 1.2)
    by (simpl; lra).
  split; [exact Hg | ]. split; [exact Hlow | ].
  destruct (low_price_margin_protected [Examples.point Examples.july1 300]
              (Examples.costs 375 530 310) 0%nat
              (Examples.point Examples.july1 300) Hg eq_refl Hlow)
    as [res [d [Hrun [Hn [Hc [_ [Hb [_ Hp]]]]]]]].
  exists res, d. repeat split; assumption.
Defined.

(** *** An empty forecast *)

Lemma div_length_empty : MathJS.div_length 0 0 = JS.NaN.
Proof.
  simpl. destruct (Req_dec_T 0 0) as [_ | N]; [reflexivity | ].
  exfalso; apply N; reflexivity.
Qed.

Lemma run_empty (config : Config) :
  runOptimizationAlgorithm [] config
  = Ok {| success := true;
          expected_profit := 0;
          optimal_capacity := JS.NaN;
          strategy := CONSERVATIVE;
          risk_level := LOW;
          bidding_schedule := [];
          cost_parameters := cost_params config |}.
Proof.
  unfold runOptimizationAlgorithm. cbn [fold_left length].
  rewrite !div_length_empty.
  destruct (Rgt_dec 0 0) as [Y | _]; [lra | ]. reflexivity.
Qed.

(** C4, as the code has it: an empty forecast sequence is not rejected.  The
    call returns a success result with an empty schedule, profit 0, strategy
    CONSERVATIVE and risk level LOW (the averages are [NaN]), and the route
    sends it as JSON. *)
Theorem optimizer_accepts_empty_forecast (config : Config) :
  runOptimizationAlgorithm [] config
  = Ok {| success := true;
          expected_profit := 0;
          optimal_capacity := JS.NaN;
          strategy := CONSERVATIVE;
          risk_level := LOW;
          bidding_schedule := [];
          cost_parameters := cost_params config |} /\
  Routes.optimize (Some []) (Some config)
  = Routes.Json {| success := true;
                   expected_profit := 0;
                   optimal_capacity := JS.NaN;
                   strategy := CONSERVATIVE;
                   risk_level := LOW;
                   bidding_schedule := [];
                   cost_parameters := cost_params config |}.
Proof.
  split; [apply run_empty | ].
  unfold Routes.optimize. rewrite run_empty. reflexivity.
Qed.

(** C4 fails on the code: with the dashboard's cost parameters the call on an
    empty sequence returns, with [success] set, and does not throw. *)
Lemma optimizer_answers_empty_forecast :
  (exists res,
     runOptimizationAlgorithm [] (Examples.costs 375 530 310) = Ok res /\
     success res = true /\ bidding_schedule res = []) /\
  (forall e,
     runOptimizationAlgorithm [] (Examples.costs 375 530 310) <> Throw e) /\
  (forall e,
     Routes.optimize (Some []) (Some (Examples.costs 375 530 310))
     <> Routes.Status500 e) /\
  Routes.optimize (Some []) (Some (Examples.costs 375 530 310))
  <> Routes.Status400.
Proof.
  unfold Routes.optimize. rewrite run_empty. simpl.
  split; [ | split; [ | split]].
  - eexists. split; [reflexivity | ]. split; reflexivity.
  - intros e; discriminate.
  - intros e; discriminate.
  - discriminate.
Qed.

End OptimizerFacts.

(** ** The decision rule under rounding *)

Module RoundedFacts.

Open Scope R_scope.

Section WithRounding.

Variable fl : R -> R.
Variables c1_5 c1_2 c1_1 c0_9 c0_95 : R.

(** Rounding is monotone and leaves 0 and the generation cost, which are
    doubles, as they are; [1.2] denotes a double below that of [1.5], and
    [1.1] one above 1. *)
Hypothesis fl_monotone : forall x y, x <= y -> fl x <= fl y.
Hypothesis fl_zero : fl 0 = 0.
Hypothesis constants : c1_2 <= c1_5 /\ 1 <= c1_1.

(** The low-price branch with the arithmetic rounded: for a generation cost
    that is not negative, a price below the rounded [generationCost * 1.2]
    gets capacity 50, a bid of at least the rounded [generationCost * 1.1],
    which is at least the cost, and an expected profit that is not
    negative. *)
Lemma rounded_low_price_margin (g : R) (pred : Point.ForecastPoint) :
  let d := Rounded.bidFor fl c1_5 c1_2 c1_1 c0_9 c0_95 g pred in
  0 <= g -> fl g = g ->
  Point.predicted_price pred < fl (g * c1_2) ->
  Bid.bid_capacity d = 50 /\
  Bid.bid_price d
  = Rmax (fl (g * c1_1)) (fl (Point.predicted_price pred * c0_9)) /\
  fl (g * c1_1) <= Bid.bid_price d /\
  g <= fl (g * c1_1) /\
  Bid.expected_profit d = fl (fl (Bid.bid_price d - g) * 50) /\
  0 <= Bid.expected_profit d.
Proof.
  intros d Hg Hfg Hlow. destruct constants as [H12 H11].
  assert (Hle : fl (g * c1_2) <= fl (g * c1_5)) by (apply fl_monotone; nra).
  assert (Hfloor : g <= fl (g * c1_1)).
  { rewrite <- Hfg at 1. apply fl_monotone. nra. }
  unfold d, Rounded.bidFor.
  destruct (Rgt_dec _ _) as [Y | _]; [lra | ].
  destruct (Rlt_dec _ _) as [_ | N]; [ | contradiction].
  cbn [Bid.bid_capacity Bid.bid_price Bid.expected_profit].
  set (bid := Rmax _ _).
  assert (Hbid : fl (g * c1_1) <= bid) by apply Rmax_l.
  split; [reflexivity | ]. split; [reflexivity | ]. split; [exact Hbid | ].
  split; [exact Hfloor | ]. split; [reflexivity | ].
  assert (H0 : 0 <= fl (bid - g)).
  { rewrite <- fl_zero. apply fl_monotone. lra. }
  rewrite <- fl_zero. apply fl_monotone. nra.
Qed.

End WithRounding.

(** Without rounding this is the rule of [Optimizer.bidFor]. *)
Lemma rounded_exact (g : R) (pred : Point.ForecastPoint) :
  Rounded.bidFor (fun x => x) 1.5 1.2 1.1 0.9 0.95 g pred
  = Optimizer.bidFor g pred.
Proof. reflexivity. Qed.

(** The hypotheses on the rounding hold of the identity, at the dashboard's
    generation cost. *)
Example rounded_low_price_margin_exact :
  Bid.bid_capacity (Optimizer.bidFor 375 (Examples.point Examples.july1 300))
  = 50 /\
  0 <= Bid.expected_profit
         (Optimizer.bidFor 375 (Examples.point Examples.july1 300)).
Proof.
  rewrite <- rounded_exact.
  assert (Hk : 1.2 <= 1.5 /\ 1 <= 1.1) by lra.
  assert (Hg : 0 <= 375) by lra.
  assert (Hlow : Point.predicted_price (Examples.point Examples.july1 300)
                 < 375 * 1.2) by (simpl; lra).
  destruct (rounded_low_price_margin (fun x => x) 1.5 1.2 1.1 0.9 0.95
              (fun x y H => H) eq_refl Hk 375
              (Examples.point Examples.july1 300) Hg eq_refl Hlow)
    as [Hc [_ [_ [_ [_ Hp]]]]].
  split; [exact Hc | exact Hp].
Qed.

End RoundedFacts.

(** ** The decision rule as the engine evaluates it *)

Module DoublesFacts.

Import PrimFloat.

#[local] Set Warnings "-inexact-float".

Local Open Scope float_scope.

(** C10 fails on the code in its bound [5 × generationCost]: at a generation
    cost of 0.95 and a predicted price of 0 the low-price branch is taken
    ([0 < 0.95 * 1.2]), the bid is [0.95 * 1.1 = 1.045] at capacity 50, and
    the expected profit [(1.045 - 0.95) * 50] comes out as 4.749999999999998,
    below [5 * 0.95 = 4.75].  The bid is still at least [generationCost * 1.1]
    and the profit is not negative. *)
Lemma low_price_profit_below_five_times_cost :
  (0 <=? 0.95) = true /\
  (0 <? 0.95 * 1.2) = true /\
  (0.95 * 1.5 <? 0) = false /\
  Doubles.bid_capacity (Doubles.bidFor 0.95 0) = 50 /\
  Doubles.bid_price (Doubles.bidFor 0.95 0) = 1.045 /\
  (0.95 * 1.1 <=? Doubles.bid_price (Doubles.bidFor 0.95 0)) = true /\
  Doubles.expected_profit (Doubles.bidFor 0.95 0) = 4.749999999999998 /\
  5 * 0.95 = 4.75 /\
  (Doubles.expected_profit (Doubles.bidFor 0.95 0) <? 5 * 0.95) = true /\
  (0 <=? Doubles.expected_profit (Doubles.bidFor 0.95 0)) = true.
Proof. repeat split; reflexivity. Qed.

End DoublesFacts.

(** ** Sums, maxima and the tail of a list *)

Module ListFacts.

Open Scope R_scope.

Lemma fold_sum_map {A : Type} (f : A -> R) (xs : list A) : forall a,
  fold_left (fun sum x => sum + f x) xs a = a + fold_right Rplus 0 (map f xs).
Proof.
  induction xs as [ | x xs IH]; intros a; simpl; [lra | ].
  rewrite IH. lra.
Qed.

Lemma sum_le {A : Type} (f h : A -> R) (xs : list A) :
  (forall x, In x xs -> f x <= h x) ->
  fold_right Rplus 0 (map f xs) <= fold_right Rplus 0 (map h xs).
Proof.
  induction xs as [ | x xs IH]; intros H; simpl; [lra | ].
  assert (f x <= h x) by (apply H; left; reflexivity).
  assert (IH' := IH (fun y Hy => H y (or_intror Hy))). lra.
Qed.

Lemma sum_bounds {A : Type} (f : A -> R) (lo hi : R) (xs : list A) :
  (forall x, In x xs -> lo <= f x <= hi) ->
  INR (length xs) * lo <= fold_right Rplus 0 (map f xs) <= INR (length xs) * hi.
Proof.
  induction xs as [ | x xs IH]; intros H.
  - simpl. lra.
  - cbn [map fold_right length]. rewrite S_INR.
    assert (lo <= f x <= hi) by (apply H; left; reflexivity).
    assert (IH' := IH (fun y Hy => H y (or_intror Hy))). lra.
Qed.

Lemma fold_Rmax_spec (xs : list R) : forall a,
  In (fold_left Rmax xs a) (a :: xs) /\
  forall x, In x (a :: xs) -> x <= fold_left Rmax xs a.
Proof.
  induction xs as [ | y xs IH]; intros a; simpl.
  - split; [left; reflexivity | intros x [<- | []]; lra].
  - destruct (IH (Rmax a y)) as [Hin Hub]. split.
    + destruct Hin as [E | Hin]; [ | right; right; exact Hin].
      rewrite <- E. unfold Rmax.
      destruct (Rle_dec a y); [right | ]; left; reflexivity.
    + intros x [<- | [<- | Hx]].
      * eapply Rle_trans; [apply Rmax_l | apply Hub; left; reflexivity].
      * eapply Rle_trans; [apply Rmax_r | apply Hub; left; reflexivity].
      * apply Hub. right. exact Hx.
Qed.

Lemma fold_Rmin_spec (xs : list R) : forall a,
  In (fold_left Rmin xs a) (a :: xs) /\
  forall x, In x (a :: xs) -> fold_left Rmin xs a <= x.
Proof.
  induction xs as [ | y xs IH]; intros a; simpl.
  - split; [left; reflexivity | intros x [<- | []]; lra].
  - destruct (IH (Rmin a y)) as [Hin Hlb]. split.
    + destruct Hin as [E | Hin]; [ | right; right; exact Hin].
      rewrite <- E. unfold Rmin.
      destruct (Rle_dec a y); [ | right]; left; reflexivity.
    + intros x [<- | [<- | Hx]].
      * eapply Rle_trans; [apply Hlb; left; reflexivity | apply Rmin_l].
      * eapply Rle_trans; [apply Hlb; left; reflexivity | apply Rmin_r].
      * apply Hlb. right. exact Hx.
Qed.

Lemma slice_last_suffix {A : Type} (n : nat) (xs : list A) :
  exists older, xs = older ++ Forecast.slice_last n xs /\
    length older = (length xs - n)%nat /\
    length (Forecast.slice_last n xs) = Nat.min n (length xs).
Proof.
  unfold Forecast.slice_last. exists (firstn (length xs - n) xs).
  split; [symmetry; apply firstn_skipn | ].
  rewrite length_firstn, length_skipn. lia.
Qed.

Lemma slice_last_app {A : Type} (n : nat) (older w : list A) :
  length w = n -> Forecast.slice_last n (older ++ w) = w.
Proof.
  intros H. unfold Forecast.slice_last. rewrite length_app, H.
  replace (length older + n - n)%nat with (length older + 0)%nat by lia.
  rewrite skipn_app, Nat.add_0_r, skipn_all.
  replace (length older - length older)%nat with 0%nat by lia. reflexivity.
Qed.

End ListFacts.

(** ** The load, beyond one row *)

Module LoadFacts.

Import JS Ingest.

Lemma filter_map_normalize (rows : list Row) :
  List.filter keep (map normalize rows)
  = map normalize
      (List.filter (fun row => truthy (firstOf row "时间" "timestamp" "Time")) rows).
Proof.
  induction rows as [ | r rs IH]; simpl; [reflexivity | ].
  rewrite IngestFacts.keep_normalize.
  destruct (truthy _); simpl; rewrite IH; reflexivity.
Qed.

(** A successful load stores exactly the rows with a truthy timestamp,
    normalised, the May rows before the June rows and each sheet in its own
    order; a missing file counts as an empty sheet. *)
Theorem load_stores_timestamped_rows (a b : list Row) (st : State) :
  loadExcelData (Sheet a) (Sheet b) st
  = ({| powerMarketData :=
          map normalize
            (List.filter
               (fun row => truthy (firstOf row "时间" "timestamp" "Time")) a)
          ++ map normalize
            (List.filter
               (fun row => truthy (firstOf row "时间" "timestamp" "Time")) b);
        isDataLoaded := true |}, true) /\
  loadExcelData Absent (Sheet b) st = loadExcelData (Sheet []) (Sheet b) st /\
  loadExcelData (Sheet a) Absent st = loadExcelData (Sheet a) (Sheet []) st /\
  loadExcelData Absent Absent st
  = ({| powerMarketData := []; isDataLoaded := true |}, true).
Proof.
  split; [ | split; [ | split]].
  - unfold loadExcelData. simpl.
    rewrite filter_map_normalize, List.filter_app, map_app. reflexivity.
  - reflexivity.
  - unfold loadExcelData. simpl. now rewrite app_nil_r.
  - reflexivity.
Qed.

(** The load fails exactly when one of the two files cannot be read, and then
    leaves both globals as they were; when it succeeds it sets the flag and
    the new store owes nothing to the old one. *)
Theorem load_failure_keeps_store (mayFile juneFile : Source) (st : State) :
  (snd (loadExcelData mayFile juneFile st) = false
   <-> mayFile = Unreadable \/ juneFile = Unreadable) /\
  (snd (loadExcelData mayFile juneFile st) = false ->
   fst (loadExcelData mayFile juneFile st) = st) /\
  (snd (loadExcelData mayFile juneFile st) = true ->
   isDataLoaded (fst (loadExcelData mayFile juneFile st)) = true /\
   forall st', loadExcelData mayFile juneFile st'
               = loadExcelData mayFile juneFile st).
Proof.
  destruct mayFile, juneFile; simpl; repeat split; try discriminate; try tauto;
    try (intros [H | H]; discriminate); auto.
Qed.

Lemma unloaded_store_empty (st : State) :
  Server.reachable st -> isDataLoaded st = false -> powerMarketData st = [].
Proof.
  induction 1 as [ | m j st Hr IH]; [reflexivity | ].
  unfold loadExcelData.
  destruct (readInto [] m) as [a | ]; [ | exact IH].
  destruct (readInto a j) as [b | ]; [ | exact IH].
  simpl. discriminate.
Qed.

(** Whatever loads happened, a store not flagged as loaded is empty, and every
    stored item has a truthy timestamp and no [NaN] among its four numbers. *)
Theorem reachable_store_invariant (st : State) :
  Server.reachable st ->
  (isDataLoaded st = false -> powerMarketData st = []) /\
  Forall (fun it =>
            truthy (timestamp it) = true /\
            isNaN (price it) = false /\ isNaN (load it) = false /\
            isNaN (demand it) = false /\ isNaN (supply it) = false)
         (powerMarketData st).
Proof.
  induction 1 as [ | m j st Hr [IHe IHf]].
  - split; [reflexivity | constructor].
  - unfold loadExcelData.
    destruct (readInto [] m) as [a | ]; [ | split; assumption].
    destruct (readInto a j) as [b | ]; [ | split; assumption].
    simpl. split; [discriminate | ].
    apply List.Forall_forall. intros it Hin.
    apply filter_In in Hin. destruct Hin as [Hin Hk].
    apply in_map_iff in Hin. destruct Hin as [row [<- _]].
    rewrite IngestFacts.keep_normalize in Hk.
    split; [exact Hk | ]. simpl. unfold numberOf.
    repeat split; apply IngestFacts.num_or_zero_not_NaN.
Qed.

Lemma reachable_store_invariant_witness :
  Server.reachable
    (fst (loadExcelData (Sheet [Examples.bad_price_row; Fixtures.priced_row])
            Unreadable
            (fst (loadExcelData (Sheet [Fixtures.zero_priced_row]) Absent
                    Server.initial)))) /\
  Forall (fun it => isNaN (price it) = false)
    (powerMarketData
       (fst (loadExcelData (Sheet [Examples.bad_price_row; Fixtures.priced_row])
               Unreadable
               (fst (loadExcelData (Sheet [Fixtures.zero_priced_row]) Absent
                       Server.initial))))).
Proof.
  assert (Hr : Server.reachable
    (fst (loadExcelData (Sheet [Examples.bad_price_row; Fixtures.priced_row])
            Unreadable
            (fst (loadExcelData (Sheet [Fixtures.zero_priced_row]) Absent
                    Server.initial)))))
    by (apply Server.reach_load, Server.reach_load, Server.reach_initial).
  split; [exact Hr | ].
  destruct (reachable_store_invariant _ Hr) as [_ Hall].
  eapply List.Forall_impl; [ | exact Hall]. intros it H. exact (proj1 (proj2 H)).
Defined.

(** A numeric price cell under the first column name, with no alias column in
    the row, is stored as it is, zero included. *)
Theorem numeric_price_cell_stored (row : Row) (x : R) :
  row !! "电价"%string = Some (VNum (Num x)) ->
  row !! "price"%string = None -> row !! "Price"%string = None ->
  price (normalize row) = Num x.
Proof.
  intros H1 H2 H3. simpl. unfold numberOf, firstOf, get.
  rewrite H1, H2, H3. simpl. unfold or_else, num_or. simpl.
  destruct (Req_dec_T x 0) as [-> | Hx]; simpl.
  - reflexivity.
  - destruct (Req_dec_T x 0); [contradiction | ]. simpl.
    destruct (Req_dec_T x 0); [contradiction | reflexivity].
Qed.

Lemma numeric_price_cell_stored_witness :
  Fixtures.priced_row !! "电价"%string = Some (VNum (Num 350)) /\
  Fixtures.priced_row !! "price"%string = None /\
  Fixtures.priced_row !! "Price"%string = None /\
  price (normalize Fixtures.priced_row) = Num 350.
Proof.
  assert (H1 : Fixtures.priced_row !! "电价"%string = Some (VNum (Num 350)))
    by reflexivity.
  assert (H2 : Fixtures.priced_row !! "price"%string = None) by reflexivity.
  assert (H3 : Fixtures.priced_row !! "Price"%string = None) by reflexivity.
  split; [exact H1 | ]. split; [exact H2 | ]. split; [exact H3 | ].
  exact (numeric_price_cell_stored Fixtures.priced_row 350 H1 H2 H3).
Defined.

(** A price cell holding the number 0 is falsy: when the row also has a
    non-zero number under the alias [price], that number is stored instead. *)
Theorem zero_price_cell_falls_through (row : Row) (y : R) :
  row !! "电价"%string = Some (VNum (Num 0)) ->
  row !! "price"%string = Some (VNum (Num y)) -> y <> 0%R ->
  price (normalize row) = Num y.
Proof.
  intros H1 H2 Hy. simpl. unfold numberOf, firstOf, get.
  rewrite H1, H2. simpl. unfold or_else, num_or. simpl.
  destruct (Req_dec_T 0 0) as [_ | N]; [ | contradiction]. simpl.
  destruct (Req_dec_T y 0); [contradiction | ]. simpl.
  destruct (Req_dec_T y 0); [contradiction | reflexivity].
Qed.

Lemma zero_price_cell_falls_through_witness :
  Fixtures.zero_priced_row !! "电价"%string = Some (VNum (Num 0)) /\
  Fixtures.zero_priced_row !! "price"%string = Some (VNum (Num 42)) /\
  42%R <> 0%R /\
  price (normalize Fixtures.zero_priced_row) = Num 42.
Proof.
  assert (H1 : Fixtures.zero_priced_row !! "电价"%string = Some (VNum (Num 0)))
    by reflexivity.
  assert (H2 : Fixtures.zero_priced_row !! "price"%string = Some (VNum (Num 42)))
    by reflexivity.
  assert (H3 : 42%R <> 0%R) by lra.
  split; [exact H1 | ]. split; [exact H2 | ]. split; [exact H3 | ].
  exact (zero_price_cell_falls_through Fixtures.zero_priced_row 42 H1 H2 H3).
Defined.

End LoadFacts.

(** ** The GET routes *)

Module ServerFacts.

Import JS Ingest Server.

Lemma total_insert (m : gmap string nat) (k : string) (v : nat) :
  map_fold (fun _ n acc => (n + acc)%nat) 0%nat (<[k := v]> m)
  = (v + map_fold (fun _ n acc => (n + acc)%nat) 0%nat m
     - default 0%nat (m !! k))%nat.
Proof.
  destruct (m !! k) as [old | ] eqn:E; simpl.
  - rewrite <- (insert_delete_eq m k v).
    rewrite map_fold_insert_L.
    + rewrite (map_fold_delete_L _ _ k old m); [lia | | exact E].
      intros; lia.
    + intros; lia.
    + apply lookup_delete_eq.
  - rewrite map_fold_insert_L; [lia | intros; lia | exact E].
Qed.

Lemma sum_of_numbers (xs : list R) : forall a,
  fold_left JSMath.add (map Num xs) (Num a) = Num (fold_left Rplus xs a).
Proof.
  induction xs as [ | x xs IH]; intros a; simpl; [reflexivity | apply IH].
Qed.

Lemma max2_numbers (a b : R) : JSMath.max2 (Num a) (Num b) = Num (Rmax a b).
Proof.
  unfold JSMath.max2, MathJS.gt, Rmax. simpl.
  destruct (Rgt_dec b a), (Rle_dec a b); try reflexivity; f_equal; lra.
Qed.

Lemma min2_numbers (a b : R) : JSMath.min2 (Num a) (Num b) = Num (Rmin a b).
Proof.
  unfold JSMath.min2, MathJS.gt, Rmin. simpl.
  destruct (Rgt_dec a b), (Rle_dec a b); try reflexivity; f_equal; lra.
Qed.

Lemma fold_max2_numbers (xs : list R) : forall a,
  fold_left JSMath.max2 (map Num xs) (Num a) = Num (fold_left Rmax xs a).
Proof.
  induction xs as [ | x xs IH]; intros a; simpl; [reflexivity | ].
  rewrite max2_numbers. apply IH.
Qed.

Lemma fold_min2_numbers (xs : list R) : forall a,
  fold_left JSMath.min2 (map Num xs) (Num a) = Num (fold_left Rmin xs a).
Proof.
  induction xs as [ | x xs IH]; intros a; simpl; [reflexivity | ].
  rewrite min2_numbers. apply IH.
Qed.

Lemma startTimeOf_cases (now : Z) (tr : string) :
  (tr = "1d"%string -> startTimeOf now tr = now - 86400000)%Z /\
  (tr = "7d"%string -> startTimeOf now tr = now - 604800000)%Z /\
  (tr = "30d"%string -> startTimeOf now tr = now - 2592000000)%Z /\
  (tr <> "1d"%string -> tr <> "7d"%string -> tr <> "30d"%string ->
   startTimeOf now tr = 0%Z).
Proof.
  repeat split.
  - intros ->. reflexivity.
  - intros ->. reflexivity.
  - intros ->. reflexivity.
  - intros H1 H7 H30. unfold startTimeOf.
    destruct (String.eqb_spec tr "1d"); [contradiction | ].
    destruct (String.eqb_spec tr "7d"); [contradiction | ].
    destruct (String.eqb_spec tr "30d"); [contradiction | reflexivity].
Qed.

Section WithDates.

Variable dateValue : value -> option Z.
Variable monthFromTime : Z -> Z.

Abbreviation monthKey := (Server.monthKey dateValue monthFromTime).
Abbreviation countMonth := (Server.countMonth dateValue monthFromTime).
Abbreviation databaseStatus := (Server.databaseStatus dateValue monthFromTime).
Abbreviation status := (Server.status dateValue monthFromTime).
Abbreviation since := (Server.since dateValue).
Abbreviation historicalPrices := (Server.historicalPrices dateValue).
Abbreviation historical := (Server.historical dateValue).

(** *** The status route *)

Lemma fold_countMonth_lookup (data : list Item) :
  forall (m : gmap string nat) (key : string),
    default 0%nat (fold_left countMonth data m !! key)
    = (default 0%nat (m !! key)
       + length (List.filter (fun it => String.eqb (monthKey it) key) data))%nat.
Proof.
  induction data as [ | it data IH]; intros m key;
    cbn [fold_left List.filter length]; [lia | ].
  rewrite IH. unfold Server.countMonth.
  destruct (String.eqb_spec (monthKey it) key) as [E | Hne].
  - rewrite E, lookup_insert_eq. cbn [length default from_option].
    unfold Datatypes.id. lia.
  - rewrite lookup_insert_ne by exact Hne. lia.
Qed.

Lemma fold_countMonth_positive (data : list Item) :
  forall (m : gmap string nat),
    (forall k v, m !! k = Some v -> (1 <= v)%nat) ->
    forall k v, fold_left countMonth data m !! k = Some v -> (1 <= v)%nat.
Proof.
  induction data as [ | it data IH]; intros m Hm k v; cbn [fold_left];
    [apply Hm | ].
  apply IH. intros k' v'. unfold Server.countMonth.
  destruct (decide (monthKey it = k')) as [-> | Hne].
  - rewrite lookup_insert_eq. intros [= <-]. lia.
  - rewrite lookup_insert_ne by exact Hne. apply Hm.
Qed.

Lemma fold_countMonth_total (data : list Item) :
  forall (m : gmap string nat),
    map_fold (fun _ n acc => (n + acc)%nat) 0%nat (fold_left countMonth data m)
    = (map_fold (fun _ n acc => (n + acc)%nat) 0%nat m + length data)%nat.
Proof.
  induction data as [ | it data IH]; intros m; cbn [fold_left length]; [lia | ].
  rewrite IH. unfold Server.countMonth. rewrite total_insert. lia.
Qed.

(** The entry of [monthlyDistribution] under a key is the number of stored
    items whose month key it is, and there is no entry when there is none. *)
Theorem status_counts_by_month (data : list Item) (key : string) :
  let n := length (List.filter (fun it => String.eqb (monthKey it) key) data) in
  StatusReply.monthlyDistribution (databaseStatus data) !! key
  = if Nat.eqb n 0 then None else Some n.
Proof.
  intros n. unfold Server.databaseStatus. cbn [StatusReply.monthlyDistribution].
  pose proof (fold_countMonth_lookup data ∅ key) as Hl.
  rewrite lookup_empty in Hl.
  cbn [default from_option] in Hl; unfold Datatypes.id in Hl.
  change (0 + ?x)%nat with x in Hl. fold n in Hl.
  destruct (fold_left countMonth data ∅ !! key) as [v | ] eqn:E;
    cbn [default from_option] in Hl; unfold Datatypes.id in Hl.
  - assert (1 <= v)%nat.
    { eapply (fold_countMonth_positive data ∅); [ | exact E].
      intros k' v'. rewrite lookup_empty. discriminate. }
    subst v. destruct (Nat.eqb_spec n 0); [lia | reflexivity].
  - rewrite <- Hl. reflexivity.
Qed.

(** The counts of [monthlyDistribution] add up to [realDataRecords]. *)
Theorem status_counts_sum_to_records (data : list Item) :
  map_fold (fun _ n acc => (n + acc)%nat) 0%nat
    (StatusReply.monthlyDistribution (databaseStatus data))
  = StatusReply.realDataRecords (databaseStatus data).
Proof.
  unfold Server.databaseStatus.
  cbn [StatusReply.monthlyDistribution StatusReply.realDataRecords].
  rewrite fold_countMonth_total, map_fold_empty. reflexivity.
Qed.

(** The month key of an item with a valid date is ["2025-01"] to ["2025-12"]
    by its month alone, whatever its year; an item whose timestamp is not a
    date is counted under ["2025-NaN"]. *)
Theorem month_key_table (item : Item) :
  (dateValue (timestamp item) = None -> monthKey item = "2025-NaN"%string) /\
  (forall t, dateValue (timestamp item) = Some t ->
     (0 <= monthFromTime t < 12)%Z ->
     monthKey item
     = nth (Z.to_nat (monthFromTime t))
         ["2025-01"; "2025-02"; "2025-03"; "2025-04"; "2025-05"; "2025-06";
          "2025-07"; "2025-08"; "2025-09"; "2025-10"; "2025-11"; "2025-12"]%string
         ""%string).
Proof.
  unfold Server.monthKey. split.
  - intros ->. reflexivity.
  - intros t -> Hm. simpl.
    assert (H : exists k, (k < 12)%nat /\ monthFromTime t = Z.of_nat k).
    { exists (Z.to_nat (monthFromTime t)). split; lia. }
    destruct H as [k [Hk ->]]. rewrite Nat2Z.id.
    do 12 (destruct k as [ | k]; [reflexivity | ]). lia.
Qed.

(** *** Loading from the routes *)

(** Once a route has left the store flagged as loaded, no later request
    reloads it: the status reply repeats, whatever the files have become, and
    the history route leaves the state alone. *)
Theorem routes_load_at_most_once (mayFile juneFile mayFile' juneFile' : Source)
  (now : Z) (query : Query.HistoryQuery) (st : State) :
  let st1 := fst (status mayFile juneFile st) in
  isDataLoaded st1 = true ->
  status mayFile' juneFile' st1 = (st1, snd (status mayFile juneFile st)) /\
  fst (historical mayFile' juneFile' now query st1) = st1 /\
  health st1
  = {| HealthReply.dataLoaded := true;
       HealthReply.dataRecords :=
         StatusReply.realDataRecords (snd (status mayFile juneFile st)) |}.
Proof.
  intros st1 Hl.
  assert (He : forall m j, ensureLoaded m j st1 = st1)
    by (intros m j; unfold ensureLoaded; rewrite Hl; reflexivity).
  unfold Server.status, Server.historical, health. cbn [fst snd].
  rewrite !He, Hl. fold st1. split; [reflexivity | ]. split; reflexivity.
Qed.

(** When the store is not loaded and a file cannot be read, the status route
    does not fail: it reports no record, an empty distribution and no time
    range, and leaves the state as it was, so that the next request tries
    again. *)
Theorem failed_load_at_route (mayFile juneFile : Source) (st : State) :
  reachable st -> isDataLoaded st = false ->
  mayFile = Unreadable \/ juneFile = Unreadable ->
  status mayFile juneFile st
  = (st, {| StatusReply.realDataRecords := 0;
            StatusReply.monthlyDistribution := ∅;
            StatusReply.timeRange := None |}).
Proof.
  intros Hr Hl Hbad.
  pose proof (LoadFacts.unloaded_store_empty st Hr Hl) as He.
  unfold Server.status, ensureLoaded. rewrite Hl.
  assert (Hload : loadExcelData mayFile juneFile st = (st, false)).
  { destruct Hbad as [-> | ->]; [reflexivity | ].
    destruct mayFile; reflexivity. }
  rewrite Hload. cbn [fst]. rewrite He. reflexivity.
Qed.

(** *** The history route *)

Lemma history_data_suffix (now : Z) (q : Query.HistoryQuery) (data : list Item) :
  let timeRange := default "1d"%string (Query.timeRange q) in
  let filtered :=
    if String.eqb timeRange "all" then data
    else List.filter (since (startTimeOf now timeRange)) data in
  (length (HistoryReply.data (historicalPrices now q data)) <= 1000)%nat /\
  exists older,
    filtered = older ++ HistoryReply.data (historicalPrices now q data) /\
    length older = (length filtered - 1000)%nat.
Proof.
  intros timeRange filtered. unfold Server.historicalPrices.
  fold timeRange. fold filtered. cbn [HistoryReply.data].
  destruct (Nat.ltb_spec 1000 (length filtered)) as [Hgt | Hle].
  - destruct (ListFacts.slice_last_suffix 1000 filtered) as [older [Ho [Hl Hs]]].
    split; [lia | ]. exists older. split; assumption.
  - split; [exact Hle | ]. exists []. split; [reflexivity | simpl; lia].
Qed.

(** The reply holds at most 1000 items: the last ones, in store order, of
    those that pass the time filter (of all items for the range ["all"]);
    [total_records] counts the items returned, not those that passed. *)
Theorem history_returns_most_recent (now : Z) (q : Query.HistoryQuery)
  (data : list Item) :
  let r := historicalPrices now q data in
  let timeRange := default "1d"%string (Query.timeRange q) in
  let filtered :=
    if String.eqb timeRange "all" then data
    else List.filter (since (startTimeOf now timeRange)) data in
  (length (HistoryReply.data r) <= 1000)%nat /\
  PriceStats.total_records (HistoryReply.statistics r)
  = length (HistoryReply.data r) /\
  HistoryReply.timeRange r = timeRange /\
  exists older, filtered = older ++ HistoryReply.data r /\
    length older = (length filtered - 1000)%nat.
Proof.
  intros r timeRange filtered.
  destruct (history_data_suffix now q data) as [Hlen Hsuf].
  split; [exact Hlen | ]. split; [reflexivity | ]. split; [reflexivity | ].
  exact Hsuf.
Qed.

(** For a range other than ["all"], every item returned is a stored item with
    a valid date not older than 1, 7 or 30 days before [now]; any other range
    text keeps the items dated from 1970 on. *)
Theorem history_filters_by_time (now : Z) (q : Query.HistoryQuery)
  (data : list Item) (item : Item) :
  let timeRange := default "1d"%string (Query.timeRange q) in
  timeRange <> "all"%string ->
  In item (HistoryReply.data (historicalPrices now q data)) ->
  In item data /\
  exists t, dateValue (timestamp item) = Some t /\
    (timeRange = "1d"%string -> now - 86400000 <= t)%Z /\
    (timeRange = "7d"%string -> now - 604800000 <= t)%Z /\
    (timeRange = "30d"%string -> now - 2592000000 <= t)%Z /\
    (timeRange <> "1d"%string -> timeRange <> "7d"%string ->
     timeRange <> "30d"%string -> 0 <= t)%Z.
Proof.
  intros timeRange Hall Hin.
  destruct (history_data_suffix now q data) as [_ [older [Hf _]]].
  fold timeRange in Hf.
  destruct (String.eqb_spec timeRange "all") as [E | _]; [contradiction | ].
  assert (Hin' : In item (List.filter (since (startTimeOf now timeRange)) data)).
  { rewrite Hf. apply in_or_app. right. exact Hin. }
  apply filter_In in Hin'. destruct Hin' as [Hd Hs].
  split; [exact Hd | ].
  unfold Server.since in Hs.
  destruct (dateValue (timestamp item)) as [t | ]; [ | discriminate].
  exists t. split; [reflexivity | ].
  apply Z.leb_le in Hs.
  destruct (startTimeOf_cases now timeRange) as [H1 [H7 [H30 H0]]].
  repeat split; intros.
  - rewrite <- H1; assumption.
  - rewrite <- H7; assumption.
  - rewrite <- H30; assumption.
  - rewrite <- H0; assumption.
Qed.

(** When the prices returned are finite numbers and there is at least one,
    the minimum and the maximum reported are prices of the reply that bound
    all of them, and the record count is their number. *)
Theorem history_statistics_of_numbers (now : Z) (q : Query.HistoryQuery)
  (data : list Item) (xs : list R) :
  let r := historicalPrices now q data in
  let stats := HistoryReply.statistics r in
  map price (HistoryReply.data r) = map Num xs -> xs <> [] ->
  exists mn mx,
    PriceStats.min_price stats = Num mn /\
    PriceStats.max_price stats = Num mx /\
    PriceStats.total_records stats = length xs /\
    In mn xs /\ In mx xs /\
    (forall x, In x xs -> mn <= x <= mx)%R /\
    (mn <= mx)%R.
Proof.
  intros r stats Hp Hne. unfold stats, r, Server.historicalPrices in *.
  cbn [HistoryReply.data HistoryReply.statistics PriceStats.min_price
       PriceStats.max_price PriceStats.total_records] in *.
  pose proof (f_equal (@length _) Hp) as Hlen. rewrite !length_map in Hlen.
  rewrite Hp. clear Hp.
  destruct xs as [ | x xs]; [contradiction | ].
  exists (fold_left Rmin xs x), (fold_left Rmax xs x).
  destruct (ListFacts.fold_Rmin_spec xs x) as [Hmin Hlb].
  destruct (ListFacts.fold_Rmax_spec xs x) as [Hmax Hub].
  split.
  { unfold JSMath.Math_min. cbn [map fold_left].
    change (JSMath.min2 (Inf false) (Num x)) with (Num x).
    apply fold_min2_numbers. }
  split.
  { unfold JSMath.Math_max. cbn [map fold_left].
    change (JSMath.max2 (Inf true) (Num x)) with (Num x).
    apply fold_max2_numbers. }
  split; [exact Hlen | ].
  split; [exact Hmin | ]. split; [exact Hmax | ].
  split; [intros y Hy; split; [apply Hlb | apply Hub]; exact Hy | ].
  exact (Hub (fold_left Rmin xs x) Hmin).
Qed.

(** When no stored item passes the time filter, the reply is still a success:
    no data, no record, the average [NaN], the maximum minus infinity and the
    minimum plus infinity. *)
Theorem history_nothing_recent (now : Z) (q : Query.HistoryQuery)
  (data : list Item) :
  let timeRange := default "1d"%string (Query.timeRange q) in
  timeRange <> "all"%string ->
  (forall item, In item data -> since (startTimeOf now timeRange) item = false) ->
  historicalPrices now q data
  = {| HistoryReply.success := true;
       HistoryReply.data := [];
       HistoryReply.statistics :=
         {| PriceStats.average_price := NaN;
            PriceStats.max_price := Inf true;
            PriceStats.min_price := Inf false;
            PriceStats.total_records := 0 |};
       HistoryReply.timeRange := timeRange;
       HistoryReply.includePredictions :=
         String.eqb (default "false"%string (Query.includePredictions q)) "true" |}.
Proof.
  intros timeRange Hall Hold. unfold Server.historicalPrices. fold timeRange.
  destruct (String.eqb_spec timeRange "all") as [E | _]; [contradiction | ].
  assert (Hf : List.filter (since (startTimeOf now timeRange)) data = []).
  { clear - Hold. induction data as [ | it data IH]; [reflexivity | ].
    simpl. rewrite (Hold it) by (left; reflexivity).
    apply IH. intros item Hin. apply Hold. right. exact Hin. }
  rewrite Hf. cbn [length Nat.ltb Nat.leb map fold_left].
  unfold JSMath.Math_max, JSMath.Math_min, JSMath.divLength.
  rewrite OptimizerFacts.div_length_empty. reflexivity.
Qed.

End WithDates.

(** *** The routes on two stored quarter-hours *)

Lemma routes_load_at_most_once_witness :
  isDataLoaded
    (fst (Server.status Fixtures.dateValue Fixtures.monthFromTime
            (Sheet [Fixtures.priced_row]) Absent Server.initial)) = true /\
  fst (Server.historical Fixtures.dateValue Unreadable Unreadable Fixtures.now
         (Fixtures.query "7d")
         (fst (Server.status Fixtures.dateValue Fixtures.monthFromTime
                 (Sheet [Fixtures.priced_row]) Absent Server.initial)))
  = fst (Server.status Fixtures.dateValue Fixtures.monthFromTime
           (Sheet [Fixtures.priced_row]) Absent Server.initial).
Proof.
  assert (Hl : isDataLoaded
    (fst (Server.status Fixtures.dateValue Fixtures.monthFromTime
            (Sheet [Fixtures.priced_row]) Absent Server.initial)) = true)
    by reflexivity.
  split; [exact Hl | ].
  exact (proj1 (proj2 (routes_load_at_most_once Fixtures.dateValue
                         Fixtures.monthFromTime (Sheet [Fixtures.priced_row])
                         Absent Unreadable Unreadable Fixtures.now
                         (Fixtures.query "7d") Server.initial Hl))).
Defined.

Lemma failed_load_at_route_witness :
  reachable Server.initial /\
  isDataLoaded Server.initial = false /\
  Server.status Fixtures.dateValue Fixtures.monthFromTime
    (Sheet [Fixtures.priced_row]) Unreadable Server.initial
  = (Server.initial,
     {| StatusReply.realDataRecords := 0;
        StatusReply.monthlyDistribution := ∅;
        StatusReply.timeRange := None |}).
Proof.
  split; [apply reach_initial | ]. split; [reflexivity | ].
  apply (failed_load_at_route Fixtures.dateValue Fixtures.monthFromTime
           (Sheet [Fixtures.priced_row]) Unreadable Server.initial
           reach_initial eq_refl).
  right. reflexivity.
Defined.

Lemma history_filters_by_time_witness :
  default "1d"%string (Query.timeRange (Fixtures.query "1d")) <> "all"%string /\
  In (Fixtures.item "2025-06-30 23:45" 410)
     (HistoryReply.data
        (Server.historicalPrices Fixtures.dateValue Fixtures.now
           (Fixtures.query "1d") Fixtures.two_items)) /\
  exists t,
    Fixtures.dateValue (timestamp (Fixtures.item "2025-06-30 23:45" 410)) = Some t /\
    (Fixtures.now - 86400000 <= t)%Z.
Proof.
  assert (Hr : default "1d"%string (Query.timeRange (Fixtures.query "1d"))
               <> "all"%string) by (simpl; discriminate).
  assert (Hin : In (Fixtures.item "2025-06-30 23:45" 410)
                  (HistoryReply.data
                     (Server.historicalPrices Fixtures.dateValue Fixtures.now
                        (Fixtures.query "1d") Fixtures.two_items)))
    by (left; reflexivity).
  split; [exact Hr | ]. split; [exact Hin | ].
  destruct (history_filters_by_time Fixtures.dateValue Fixtures.now
              (Fixtures.query "1d") Fixtures.two_items
              (Fixtures.item "2025-06-30 23:45" 410) Hr Hin)
    as [_ [t [Ht [H1 _]]]].
  exists t. split; [exact Ht | ]. apply H1. reflexivity.
Defined.

Lemma history_statistics_of_numbers_witness :
  map price
    (HistoryReply.data
       (Server.historicalPrices Fixtures.dateValue Fixtures.now
          (Fixtures.query "all") Fixtures.two_items))
  = map Num [350; 410]%R /\
  [350; 410]%R <> [] /\
  exists mn mx,
    PriceStats.min_price
      (HistoryReply.statistics
         (Server.historicalPrices Fixtures.dateValue Fixtures.now
            (Fixtures.query "all") Fixtures.two_items)) = Num mn /\
    PriceStats.max_price
      (HistoryReply.statistics
         (Server.historicalPrices Fixtures.dateValue Fixtures.now
            (Fixtures.query "all") Fixtures.two_items)) = Num mx /\
    In mn [350; 410]%R /\ In mx [350; 410]%R /\
    (mn <= mx)%R.
Proof.
  assert (Hp : map price
                 (HistoryReply.data
                    (Server.historicalPrices Fixtures.dateValue Fixtures.now
                       (Fixtures.query "all") Fixtures.two_items))
               = map Num [350; 410]%R) by reflexivity.
  assert (Hne : [350; 410]%R <> []) by discriminate.
  split; [exact Hp | ]. split; [exact Hne | ].
  destruct (history_statistics_of_numbers Fixtures.dateValue Fixtures.now
              (Fixtures.query "all") Fixtures.two_items [350; 410]%R Hp Hne)
    as [mn [mx [Hmn [Hmx [_ [Hi [Hj [_ Hb]]]]]]]].
  exists mn, mx. repeat split; assumption.
Defined.

(** A request made ten days after the last stored quarter-hour. *)
Lemma history_nothing_recent_witness :
  default "1d"%string (Query.timeRange (Fixtures.query "7d")) <> "all"%string /\
  HistoryReply.data
    (Server.historicalPrices Fixtures.dateValue (Fixtures.now + 864000000)
       (Fixtures.query "7d") Fixtures.two_items) = [] /\
  PriceStats.average_price
    (HistoryReply.statistics
       (Server.historicalPrices Fixtures.dateValue (Fixtures.now + 864000000)
          (Fixtures.query "7d") Fixtures.two_items)) = NaN.
Proof.
  assert (Hr : default "1d"%string (Query.timeRange (Fixtures.query "7d"))
               <> "all"%string) by (simpl; discriminate).
  assert (Hold : forall item, In item Fixtures.two_items ->
            Server.since Fixtures.dateValue
              (startTimeOf (Fixtures.now + 864000000)
                 (default "1d"%string (Query.timeRange (Fixtures.query "7d"))))
              item = false).
  { intros item [<- | [<- | []]]; reflexivity. }
  split; [exact Hr | ].
  rewrite (history_nothing_recent Fixtures.dateValue (Fixtures.now + 864000000)
             (Fixtures.query "7d") Fixtures.two_items Hr Hold).
  split; reflexivity.
Defined.

End ServerFacts.

(** ** The forecast, beyond the claims *)

Module ForecastExtras.

Import Store Forecast.

Open Scope R_scope.

(** The dates of all steps are valid, or the date of one step is not. *)
Lemma stepsValid_true_iff (config : Config) :
  stepsValid config 0 (Z.to_nat (prediction_hours config)) = true <->
  (forall i, (Z.of_nat i < prediction_hours config)%Z ->
     exists t, timestampOf (prediction_date config) i = Some t).
Proof.
  rewrite ForecastFacts.stepsValid_spec. split.
  - intros H i Hi. apply H. lia.
  - intros H k Hk. apply H. lia.
Qed.

Lemma stepsValid_false_iff (config : Config) :
  stepsValid config 0 (Z.to_nat (prediction_hours config)) = false <->
  (exists i, (Z.of_nat i < prediction_hours config)%Z /\
     timestampOf (prediction_date config) i = None).
Proof.
  split.
  - intros Hv. unfold stepsValid in Hv.
    apply ForecastFacts.forallb_forall_false_seq in Hv.
    destruct Hv as [i [Hi Hf]]. exists i. split; [lia | ].
    destruct (timestampOf (prediction_date config) i);
      [discriminate | reflexivity].
  - intros [i [Hi Hnone]].
    destruct (stepsValid config 0 (Z.to_nat (prediction_hours config))) eqn:Hv;
      [ | reflexivity].
    destruct (proj1 (stepsValid_true_iff config) Hv i Hi) as [t Ht].
    congruence.
Qed.

Section WithEnvironment.

Variable LocalTZA : Z -> Z.
Variable rnd : nat -> R.

Abbreviation pointOf := (Forecast.pointOf LocalTZA rnd).
Abbreviation stepPrice := (Forecast.stepPrice LocalTZA rnd).
Abbreviation runPredictionAlgorithm := (Forecast.runPredictionAlgorithm LocalTZA rnd).

Lemma predictions_are_points (st : State) (config : Config) res p :
  runPredictionAlgorithm st config = Ok res -> In p (predictions res) ->
  exists i, (i < Z.to_nat (prediction_hours config))%nat /\
    p = pointOf (avgPrice (slice_last 168 (powerMarketData st)))
                (priceStd (slice_last 168 (powerMarketData st))) config i.
Proof.
  intros Hrun Hin.
  destruct (ForecastFacts.run_Ok_inv LocalTZA rnd st config res Hrun)
    as [_ [_ [_ [_ Hp]]]].
  rewrite Hp in Hin. apply in_map_iff in Hin. destruct Hin as [i [<- Hi]].
  apply in_seq in Hi. exists i. split; [lia | reflexivity].
Qed.

(** Whatever the request, also with a confidence level outside (0,1), no
    point of a result has a negative price or a negative lower bound, and
    each point echoes the requested level. *)
Theorem forecast_prices_never_negative (st : State) (config : Config)
  (res : PredictionResult) :
  runPredictionAlgorithm st config = Ok res ->
  Forall (fun p =>
            0 <= Point.predicted_price p /\ 0 <= Point.confidence_lower p /\
            Point.confidence_level p = confidence_level config)
         (predictions res).
Proof.
  intros Hrun.
  apply List.Forall_forall. intros p Hin.
  destruct (predictions_are_points st config res p Hrun Hin) as [i [_ ->]].
  cbn [Forecast.pointOf Forecast.pointAt Point.predicted_price
       Point.confidence_lower Point.confidence_level].
  split; [apply Rmax_l | ]. split; [apply Rmax_l | reflexivity].
Qed.

(** Only the last 168 observations count: on two stores that end with the
    same 168 observations a request has the same outcome, whatever came
    before.  Either both calls return, with the same points, the same average
    predicted price and the same accuracy figure, or both throw the same
    error; and both return when the dates of the request are within the
    range. *)
Theorem forecast_uses_last_week_only (older1 older2 w : list Observation)
  (config : Config) :
  length w = 168%nat ->
  match
    runPredictionAlgorithm
      {| powerMarketData := older1 ++ w; isDataLoaded := true |} config,
    runPredictionAlgorithm
      {| powerMarketData := older2 ++ w; isDataLoaded := true |} config
  with
  | Ok r1, Ok r2 =>
      predictions r1 = predictions r2 /\
      accuracy r1 = accuracy r2 /\
      Stats.average_price (statistics r1) = Stats.average_price (statistics r2)
  | Throw e1, Throw e2 => e1 = e2
  | _, _ => False
  end /\
  (forall start,
     prediction_date config = Some start ->
     (- maxTimeValue <= start)%Z ->
     (start + (prediction_hours config - 1) * (15 * 60 * 1000)
      <= maxTimeValue)%Z ->
     exists r1 r2,
       runPredictionAlgorithm
         {| powerMarketData := older1 ++ w; isDataLoaded := true |} config
       = Ok r1 /\
       runPredictionAlgorithm
         {| powerMarketData := older2 ++ w; isDataLoaded := true |} config
       = Ok r2 /\
       predictions r1 = predictions r2 /\
       accuracy r1 = accuracy r2 /\
       Stats.average_price (statistics r1)
       = Stats.average_price (statistics r2)).
Proof.
  intros Hw.
  assert (Hne : forall older : list Observation, older ++ w <> []).
  { intros older H. apply (f_equal (@length _)) in H.
    rewrite length_app, Hw in H. simpl in H. lia. }
  rewrite (ForecastFacts.run_with_data LocalTZA rnd
             {| powerMarketData := older1 ++ w; isDataLoaded := true |} config
             eq_refl (Hne older1)).
  rewrite (ForecastFacts.run_with_data LocalTZA rnd
             {| powerMarketData := older2 ++ w; isDataLoaded := true |} config
             eq_refl (Hne older2)).
  cbv zeta. cbn [powerMarketData].
  rewrite !ListFacts.slice_last_app by exact Hw.
  rewrite ForecastFacts.forLoop_spec.
  split.
  - destruct (stepsValid config 0 (Z.to_nat (prediction_hours config)));
      [ | reflexivity].
    cbn [predictions accuracy statistics Stats.average_price].
    split; [reflexivity | ]. split; reflexivity.
  - intros start Hd Hlo Hhi.
    rewrite (ForecastFacts.stepsValid_in_range config start Hd Hlo Hhi).
    eexists. eexists. split; [reflexivity | ]. split; [reflexivity | ].
    cbn [predictions accuracy statistics Stats.average_price].
    split; [reflexivity | ]. split; reflexivity.
Qed.

(** The statistics of a result: the point count is the number of points,
    which is max(horizon, 0); [real_data_points] is the size of the whole
    store; the level is echoed; the average is [NaN] when the horizon is not
    positive; and with its draw in [0,1) the accuracy figure lies between
    0.85 and 0.95. *)
Theorem forecast_statistics (st : State) (config : Config)
  (res : PredictionResult) :
  runPredictionAlgorithm st config = Ok res ->
  Stats.total_points (statistics res) = length (predictions res) /\
  length (predictions res) = Z.to_nat (prediction_hours config) /\
  Stats.real_data_points (statistics res) = length (powerMarketData st) /\
  Stats.confidence_level (statistics res) = confidence_level config /\
  Stats.based_on_real_data (statistics res) = true /\
  ((prediction_hours config <= 0)%Z ->
     Stats.average_price (statistics res) = JS.NaN) /\
  (0 <= rnd (Z.to_nat (prediction_hours config)) < 1 ->
     0.85 <= accuracy res <= 0.95).
Proof.
  intros Hrun.
  destruct (ForecastFacts.run_Ok_inv LocalTZA rnd st config res Hrun)
    as [Hl [Hne [Hv [_ Hp]]]].
  rewrite (ForecastFacts.run_with_data LocalTZA rnd st config Hl Hne) in Hrun.
  cbv zeta in Hrun. rewrite ForecastFacts.forLoop_spec, Hv in Hrun.
  injection Hrun as <-.
  cbn [statistics predictions accuracy Stats.total_points
       Stats.real_data_points Stats.confidence_level Stats.average_price
       Stats.based_on_real_data app].
  split; [reflexivity | ].
  split; [rewrite length_map, length_seq; reflexivity | ].
  split; [reflexivity | ]. split; [reflexivity | ]. split; [reflexivity | ].
  split.
  - intros Hle.
    replace (Z.to_nat (prediction_hours config)) with 0%nat by lia.
    cbn [seq map fold_left length]. apply OptimizerFacts.div_length_empty.
  - intros Hu. lra.
Qed.

(** The predict route answers 400 exactly when the body has no [config]; with
    one it answers 500 for the error "data not loaded" exactly when the store
    is not loaded or empty, 500 for the RangeError exactly when the store is
    loaded and not empty and the date of some step of the horizon is invalid,
    and the result exactly when the store is loaded and not empty and the
    dates of all steps are valid. *)
Theorem predict_status_codes (st : State) (config : Config) :
  Routes.predict LocalTZA rnd st None = Routes.Status400 /\
  (isDataLoaded st = false \/ powerMarketData st = [] <->
   Routes.predict LocalTZA rnd st (Some config)
   = Routes.Status500 DataNotLoaded) /\
  (isDataLoaded st = true /\ powerMarketData st <> [] /\
   (exists i, (Z.of_nat i < prediction_hours config)%Z /\
      timestampOf (prediction_date config) i = None) <->
   Routes.predict LocalTZA rnd st (Some config)
   = Routes.Status500 InvalidTimeValue) /\
  (isDataLoaded st = true /\ powerMarketData st <> [] /\
   (forall i, (Z.of_nat i < prediction_hours config)%Z ->
      exists t, timestampOf (prediction_date config) i = Some t) <->
   exists res, Routes.predict LocalTZA rnd st (Some config) = Routes.Json res).
Proof.
  split; [reflexivity | ]. unfold Routes.predict.
  rewrite <- stepsValid_false_iff, <- stepsValid_true_iff.
  destruct (ForecastFacts.store_cases st) as [[Hl Hne] | Hno].
  - destruct (stepsValid config 0 (Z.to_nat (prediction_hours config))) eqn:Hv.
    + destruct (ForecastFacts.run_valid LocalTZA rnd st config Hl Hne Hv)
        as [res [Hrun _]].
      rewrite Hrun. simpl. split; [ | split]; split.
      * intros [H | H]; congruence.
      * discriminate.
      * intros [_ [_ H]]. discriminate.
      * discriminate.
      * intros _. exists res. reflexivity.
      * intros _. auto.
    + rewrite (ForecastFacts.run_invalid LocalTZA rnd st config Hl Hne Hv).
      simpl. split; [ | split]; split.
      * intros [H | H]; congruence.
      * discriminate.
      * reflexivity.
      * intros _. auto.
      * intros [_ [_ H]]. discriminate.
      * intros [res H]. discriminate.
  - rewrite (ForecastFacts.run_not_loaded LocalTZA rnd st config Hno).
    simpl. split; [ | split]; split.
    + reflexivity.
    + intros _. exact Hno.
    + intros [Hl [Hne _]]. destruct Hno; congruence.
    + discriminate.
    + intros [Hl [Hne _]]. destruct Hno; congruence.
    + intros [res H]. discriminate.
Qed.

End WithEnvironment.

(** *** The forecast on the scenario window *)

Lemma forecast_prices_never_negative_witness :
  exists res,
    Forecast.runPredictionAlgorithm Examples.utc8 (Examples.draws 0.25)
      Examples.scenario_store (Examples.request 4 1.5) = Ok res /\
    length (predictions res) = 4%nat /\
    Forall (fun p => 0 <= Point.predicted_price p) (predictions res).
Proof.
  destruct (ForecastFacts.run_valid Examples.utc8 (Examples.draws 0.25)
              Examples.scenario_store (Examples.request 4 1.5))
    as [res [Hrun [_ Hp]]];
    [reflexivity | discriminate | apply ForecastFacts.request_valid; lia | ].
  exists res. split; [exact Hrun | ]. split.
  - rewrite Hp, length_map, length_seq. reflexivity.
  - eapply List.Forall_impl;
      [ | exact (forecast_prices_never_negative Examples.utc8
                   (Examples.draws 0.25) Examples.scenario_store
                   (Examples.request 4 1.5) res Hrun)].
    intros p H. exact (proj1 H).
Defined.

Lemma forecast_uses_last_week_only_witness :
  length (Fixtures.flat_week 400) = 168%nat /\
  exists r1 r2,
    Forecast.runPredictionAlgorithm Examples.utc8 (Examples.draws 0.25)
      {| powerMarketData := [] ++ Fixtures.flat_week 400; isDataLoaded := true |}
      (Examples.request 4 0.95) = Ok r1 /\
    Forecast.runPredictionAlgorithm Examples.utc8 (Examples.draws 0.25)
      {| powerMarketData := [Examples.obs 0; Examples.obs 9000]
                            ++ Fixtures.flat_week 400;
         isDataLoaded := true |}
      (Examples.request 4 0.95) = Ok r2 /\
    predictions r1 = predictions r2.
Proof.
  assert (Hw : length (Fixtures.flat_week 400) = 168%nat) by reflexivity.
  split; [exact Hw | ].
  destruct (forecast_uses_last_week_only Examples.utc8 (Examples.draws 0.25)
              [] [Examples.obs 0; Examples.obs 9000] (Fixtures.flat_week 400)
              (Examples.request 4 0.95) Hw)
    as [_ Hboth].
  destruct (Hboth Examples.july1) as [r1 [r2 [H1 [H2 [HP _]]]]].
  - reflexivity.
  - unfold maxTimeValue, Examples.july1. lia.
  - simpl. unfold maxTimeValue, Examples.july1. lia.
  - exists r1, r2. split; [exact H1 | ]. split; [exact H2 | exact HP].
Defined.

Lemma forecast_statistics_witness :
  exists res,
    Forecast.runPredictionAlgorithm Examples.utc8 (Examples.draws 0.25)
      Examples.scenario_store (Examples.request 0 0.95) = Ok res /\
    Stats.average_price (statistics res) = JS.NaN /\
    Stats.real_data_points (statistics res) = 4%nat /\
    0.85 <= accuracy res <= 0.95.
Proof.
  destruct (ForecastFacts.run_valid Examples.utc8 (Examples.draws 0.25)
              Examples.scenario_store (Examples.request 0 0.95))
    as [res [Hrun _]];
    [reflexivity | discriminate | apply ForecastFacts.request_valid; lia | ].
  destruct (forecast_statistics Examples.utc8 (Examples.draws 0.25)
              Examples.scenario_store (Examples.request 0 0.95) res Hrun)
    as [_ [_ [Hn [_ [_ [Hnan Hacc]]]]]].
  exists res. split; [exact Hrun | ]. split; [ | split; [exact Hn | ]].
  - apply Hnan. simpl. lia.
  - apply Hacc. unfold Examples.draws. lra.
Defined.

End ForecastExtras.

(** ** The bid optimizer, beyond the claims *)

Module OptimizerExtras.

Import Optimizer.

Open Scope R_scope.

Lemma run_unfold (predictions : list Point.ForecastPoint) (config : Config) :
  let g := generationCost (cost_params config) in
  let schedule := map (bidFor g) predictions in
  runOptimizationAlgorithm predictions config
  = Ok {| success := true;
          expected_profit :=
            fold_left Rplus (map (fun p => Bid.expected_profit (bidFor g p)) predictions) 0;
          optimal_capacity :=
            MathJS.div_length
              (fold_left (fun sum b => sum + Bid.bid_capacity b) schedule 0)
              (length schedule);
          strategy :=
            if Rgt_dec (fold_left Rplus
                          (map (fun p => Bid.expected_profit (bidFor g p)) predictions) 0) 0
            then AGGRESSIVE else CONSERVATIVE;
          risk_level :=
            riskOf
              (MathJS.div_length
                 (fold_left (fun sum b => sum + Bid.bid_price b) schedule 0)
                 (length schedule))
              (MathJS.div_length
                 (fold_left (fun sum p => sum + Point.predicted_price p) predictions 0)
                 (length predictions));
          bidding_schedule := schedule;
          cost_parameters := cost_params config |}.
Proof.
  intros g schedule. unfold runOptimizationAlgorithm. fold g.
  rewrite OptimizerFacts.callback_fold. reflexivity.
Qed.

Lemma bidFor_capacity (g : R) (p : Point.ForecastPoint) :
  Bid.bid_capacity (bidFor g p) = 50 \/ Bid.bid_capacity (bidFor g p) = 100 \/
  Bid.bid_capacity (bidFor g p) = 150.
Proof.
  unfold bidFor. destruct (Rgt_dec _ _); [right; right; reflexivity | ].
  destruct (Rlt_dec _ _); [left | right; left]; reflexivity.
Qed.

Lemma bidFor_cases (g : R) (p : Point.ForecastPoint) :
  let x := Point.predicted_price p in
  (x > g * 1.5 /\ Bid.bid_price (bidFor g p) = x * 0.95 /\
   Bid.bid_capacity (bidFor g p) = 150) \/
  (~ x > g * 1.5 /\ x < g * 1.2 /\
   Bid.bid_price (bidFor g p) = Rmax (g * 1.1) (x * 0.9) /\
   Bid.bid_capacity (bidFor g p) = 50) \/
  (~ x > g * 1.5 /\ ~ x < g * 1.2 /\ Bid.bid_price (bidFor g p) = x /\
   Bid.bid_capacity (bidFor g p) = 100).
Proof.
  intros x.
  destruct (Rgt_dec x (g * 1.5)) as [H | H].
  - left. destruct (OptimizerFacts.bidFor_high g p H). tauto.
  - destruct (Rlt_dec x (g * 1.2)) as [L | L].
    + right; left. destruct (OptimizerFacts.bidFor_low g p H L). tauto.
    + right; right. destruct (OptimizerFacts.bidFor_default g p H L). tauto.
Qed.

Lemma bidFor_profit_nonneg (g : R) (p : Point.ForecastPoint) :
  0 <= g -> 0 <= Bid.expected_profit (bidFor g p).
Proof.
  intros Hg. rewrite OptimizerFacts.bidFor_profit.
  destruct (bidFor_cases g p) as [[H [-> ->]] | [[H [L [-> ->]]] | [H [L [-> ->]]]]].
  - nra.
  - pose proof (Rmax_l (g * 1.1) (Point.predicted_price p * 0.9)). nra.
  - nra.
Qed.

Lemma fold_left_Rplus_nonneg (xs : list R) : forall a,
  0 <= a -> (forall x, In x xs -> 0 <= x) -> 0 <= fold_left Rplus xs a.
Proof.
  induction xs as [ | x xs IH]; intros a Ha H; simpl; [exact Ha | ].
  apply IH.
  - pose proof (H x (or_introl eq_refl)). lra.
  - intros y Hy. apply H. right. exact Hy.
Qed.

(** Every decision offers 50, 100 or 150 MW; the optimal capacity reported is
    [NaN] for an empty forecast and otherwise the mean of the capacities
    offered, between 50 and 150. *)
Theorem bid_capacity_levels (predictions : list Point.ForecastPoint)
  (config : Config) :
  exists res, runOptimizationAlgorithm predictions config = Ok res /\
    Forall (fun d => Bid.bid_capacity d = 50 \/ Bid.bid_capacity d = 100 \/
                     Bid.bid_capacity d = 150) (bidding_schedule res) /\
    (predictions = [] -> optimal_capacity res = JS.NaN) /\
    (predictions <> [] ->
     exists m, optimal_capacity res = JS.Num m /\ 50 <= m <= 150 /\
       m = fold_right Rplus 0 (map Bid.bid_capacity (bidding_schedule res))
           / INR (length (bidding_schedule res))).
Proof.
  eexists. split; [apply run_unfold | ].
  cbn [bidding_schedule optimal_capacity].
  set (g := generationCost (cost_params config)).
  split; [ | split].
  - apply List.Forall_forall. intros d Hd. apply in_map_iff in Hd.
    destruct Hd as [p [<- _]]. apply bidFor_capacity.
  - intros ->. simpl. apply OptimizerFacts.div_length_empty.
  - intros Hne. rewrite ListFacts.fold_sum_map, Rplus_0_l.
    destruct (map (bidFor g) predictions) as [ | d ds] eqn:E.
    { destruct predictions; [contradiction | discriminate]. }
    eexists. split; [reflexivity | ]. split; [ | reflexivity].
    assert (Hb : forall x, In x (d :: ds) -> 50 <= Bid.bid_capacity x <= 150).
    { intros x Hx. rewrite <- E in Hx. apply in_map_iff in Hx.
      destruct Hx as [p [<- _]].
      destruct (bidFor_capacity g p) as [-> | [-> | ->]]; lra. }
    pose proof (ListFacts.sum_bounds Bid.bid_capacity 50 150 (d :: ds) Hb) as [Hlo Hhi].
    assert (Hn : 0 < INR (length (d :: ds))) by (apply lt_0_INR; simpl; lia).
    split.
    + apply Rmult_le_reg_r with (r := INR (length (d :: ds))); [exact Hn | ].
      unfold Rdiv. rewrite Rmult_assoc, Rinv_l by lra. lra.
    + apply Rmult_le_reg_r with (r := INR (length (d :: ds))); [exact Hn | ].
      unfold Rdiv. rewrite Rmult_assoc, Rinv_l by lra. lra.
Qed.

(** With a generation cost that is not negative no decision has a negative
    expected profit, in each of the three branches and whatever the predicted
    price, so the total is not negative either; the strategy is then
    CONSERVATIVE exactly when the total is zero. *)
Theorem nonnegative_cost_never_loses
  (predictions : list Point.ForecastPoint) (config : Config) :
  0 <= generationCost (cost_params config) ->
  exists res, runOptimizationAlgorithm predictions config = Ok res /\
    Forall (fun d => 0 <= Bid.expected_profit d) (bidding_schedule res) /\
    0 <= expected_profit res /\
    (strategy res = CONSERVATIVE <-> expected_profit res = 0).
Proof.
  intros Hg. eexists. split; [apply run_unfold | ].
  cbn [bidding_schedule expected_profit strategy].
  set (g := generationCost (cost_params config)) in *.
  assert (Htot : 0 <= fold_left Rplus
            (map (fun p => Bid.expected_profit (bidFor g p)) predictions) 0).
  { apply fold_left_Rplus_nonneg; [lra | ].
    intros x Hx. apply in_map_iff in Hx. destruct Hx as [p [<- _]].
    apply bidFor_profit_nonneg, Hg. }
  split; [ | split].
  - apply List.Forall_forall. intros d Hd. apply in_map_iff in Hd.
    destruct Hd as [p [<- _]]. apply bidFor_profit_nonneg, Hg.
  - exact Htot.
  - destruct (Rgt_dec _ 0) as [Y | N]; split; intros H;
      [discriminate | lra | lra | reflexivity].
Qed.

Lemma riskOf_numbers (b p : R) :
  riskOf (JS.Num b) (JS.Num p)
  = if Rgt_dec b (p * 1.1) then HIGH
    else if Rgt_dec b (p * 1.05) then MEDIUM else LOW.
Proof.
  unfold riskOf, MathJS.mul, MathJS.gt.
  destruct (Rgt_dec b (p * 1.1)); [reflexivity | ].
  destruct (Rgt_dec b (p * 1.05)); reflexivity.
Qed.

Lemma averages_of_nonempty (predictions : list Point.ForecastPoint) (g : R) :
  predictions <> [] ->
  let n := INR (length predictions) in
  0 < n /\
  MathJS.div_length
    (fold_left (fun sum b => sum + Bid.bid_price b) (map (bidFor g) predictions) 0)
    (length (map (bidFor g) predictions))
  = JS.Num (fold_right Rplus 0
              (map (fun p => Bid.bid_price (bidFor g p)) predictions) / n) /\
  MathJS.div_length
    (fold_left (fun sum p => sum + Point.predicted_price p) predictions 0)
    (length predictions)
  = JS.Num (fold_right Rplus 0 (map Point.predicted_price predictions) / n).
Proof.
  intros Hne n.
  assert (Hn : 0 < n).
  { apply lt_0_INR. destruct predictions; [contradiction | simpl; lia]. }
  split; [exact Hn | ].
  rewrite !ListFacts.fold_sum_map, !Rplus_0_l, length_map, map_map.
  destruct (length predictions) as [ | k] eqn:E.
  { destruct predictions; [contradiction | discriminate]. }
  split; reflexivity.
Qed.

(** When no predicted price is negative or below 1.2 times the generation
    cost, no bid exceeds its predicted price and the risk level is LOW. *)
Theorem risk_is_low_without_low_price_periods
  (predictions : list Point.ForecastPoint) (config : Config) :
  (forall p, In p predictions ->
     0 <= Point.predicted_price p /\
     ~ Point.predicted_price p < generationCost (cost_params config) * 1.2) ->
  exists res, runOptimizationAlgorithm predictions config = Ok res /\
    risk_level res = LOW /\
    Forall (fun d => Bid.bid_price d <= Bid.predicted_price d) (bidding_schedule res).
Proof.
  intros H. eexists. split; [apply run_unfold | ].
  cbn [risk_level bidding_schedule].
  set (g := generationCost (cost_params config)) in *.
  assert (Hbid : forall p, In p predictions ->
            Bid.bid_price (bidFor g p) <= Point.predicted_price p).
  { intros p Hp. destruct (H p Hp) as [H0 Hl].
    destruct (bidFor_cases g p) as [[_ [-> _]] | [[_ [L _]] | [_ [_ [-> _]]]]];
      [lra | contradiction | lra]. }
  split.
  - destruct predictions as [ | p0 ps] eqn:E.
    + cbn [map fold_left length]. rewrite !OptimizerFacts.div_length_empty.
      reflexivity.
    + rewrite <- E in *.
      assert (Hne : predictions <> []) by (rewrite E; discriminate).
      destruct (averages_of_nonempty predictions g Hne) as [Hn [-> ->]].
      rewrite riskOf_numbers.
      pose proof (ListFacts.sum_le (fun p => Bid.bid_price (bidFor g p))
                    Point.predicted_price predictions Hbid) as Hle.
      assert (Hp0 : 0 <= fold_right Rplus 0 (map Point.predicted_price predictions)).
      { pose proof (ListFacts.sum_le (fun _ => 0) Point.predicted_price predictions
                      (fun p Hp => proj1 (H p Hp))) as Hz.
        assert (Hzero : fold_right Rplus 0
                          (map (fun _ : Point.ForecastPoint => 0) predictions) = 0).
        { clear. induction predictions; simpl; [reflexivity | lra]. }
        lra. }
      set (sb := fold_right Rplus 0 _) in *.
      set (sp := fold_right Rplus 0 (map Point.predicted_price predictions)) in *.
      assert (Hi : 0 < / INR (length predictions)) by (apply Rinv_0_lt_compat, Hn).
      assert (Hq : sb / INR (length predictions) <= sp / INR (length predictions)).
      { unfold Rdiv. apply Rmult_le_compat_r; lra. }
      assert (Hq0 : 0 <= sp / INR (length predictions)).
      { unfold Rdiv. apply Rmult_le_pos; lra. }
      destruct (Rgt_dec _ _); [lra | ]. destruct (Rgt_dec _ _); [lra | reflexivity].
  - apply List.Forall_forall. intros d Hd. apply in_map_iff in Hd.
    destruct Hd as [p [<- Hp]].
    rewrite (proj2 (OptimizerFacts.bidFor_echo g p)). apply Hbid, Hp.
Qed.

(** The decisions do not depend on one another: the schedule of two forecasts
    joined is the two schedules joined, and the total profit is the total of
    the first with the expected profits of the second added to it one after
    the other. *)
Theorem optimizer_is_period_by_period
  (first rest : list Point.ForecastPoint) (config : Config) :
  exists r r1 r2,
    runOptimizationAlgorithm (first ++ rest) config = Ok r /\
    runOptimizationAlgorithm first config = Ok r1 /\
    runOptimizationAlgorithm rest config = Ok r2 /\
    bidding_schedule r = bidding_schedule r1 ++ bidding_schedule r2 /\
    expected_profit r
    = fold_left Rplus (map Bid.expected_profit (bidding_schedule r2))
                (expected_profit r1).
Proof.
  eexists. eexists. eexists.
  split; [apply run_unfold | ]. split; [apply run_unfold | ].
  split; [apply run_unfold | ].
  cbn [bidding_schedule expected_profit].
  split; [apply map_app | ].
  rewrite map_app, fold_left_app, map_map. reflexivity.
Qed.

(** For a predicted price that is not negative, the bid is at least 0.9 of
    it and at most the larger of the predicted price and 1.1 times the
    generation cost. *)
Theorem bid_price_bounds (predictions : list Point.ForecastPoint)
  (config : Config) :
  let g := generationCost (cost_params config) in
  exists res, runOptimizationAlgorithm predictions config = Ok res /\
    Forall (fun d =>
              0 <= Bid.predicted_price d ->
              Bid.predicted_price d * 0.9 <= Bid.bid_price d
              <= Rmax (Bid.predicted_price d) (g * 1.1))
           (bidding_schedule res).
Proof.
  intros g. eexists. split; [apply run_unfold | ].
  cbn [bidding_schedule]. fold g.
  apply List.Forall_forall. intros d Hd. apply in_map_iff in Hd.
  destruct Hd as [p [<- _]]. rewrite (proj2 (OptimizerFacts.bidFor_echo g p)).
  intros H0.
  pose proof (Rmax_l (Point.predicted_price p) (g * 1.1)).
  pose proof (Rmax_r (Point.predicted_price p) (g * 1.1)).
  destruct (bidFor_cases g p) as [[_ [-> _]] | [[_ [_ [-> _]]] | [_ [_ [-> _]]]]].
  - lra.
  - split; [apply Rmax_r | ]. apply Rmax_lub; lra.
  - lra.
Qed.

(** *** The optimizer at the dashboard's cost parameters *)

Lemma nonnegative_cost_never_loses_witness :
  0 <= generationCost (cost_params (Examples.costs 0 530 310)) /\
  exists res,
    runOptimizationAlgorithm
      [Examples.point Examples.july1 0; Examples.point Examples.july1 (-20)]
      (Examples.costs 0 530 310) = Ok res /\
    0 <= expected_profit res /\
    Forall (fun d => 0 <= Bid.expected_profit d) (bidding_schedule res).
Proof.
  assert (Hg : 0 <= generationCost (cost_params (Examples.costs 0 530 310)))
    by (simpl; lra).
  split; [exact Hg | ].
  destruct (nonnegative_cost_never_loses
              [Examples.point Examples.july1 0;
               Examples.point Examples.july1 (-20)]
              (Examples.costs 0 530 310) Hg) as [res [Hrun [Hall [Htot _]]]].
  exists res. split; [exact Hrun | ]. split; [exact Htot | exact Hall].
Defined.

Lemma risk_is_low_without_low_price_periods_witness :
  (forall p, In p [Examples.point Examples.july1 500] ->
     0 <= Point.predicted_price p /\
     ~ Point.predicted_price p
       < generationCost (cost_params (Examples.costs 375 530 310)) * 1.2) /\
  exists res,
    runOptimizationAlgorithm [Examples.point Examples.july1 500]
      (Examples.costs 375 530 310) = Ok res /\
    risk_level res = LOW.
Proof.
  assert (H : forall p, In p [Examples.point Examples.july1 500] ->
     0 <= Point.predicted_price p /\
     ~ Point.predicted_price p
       < generationCost (cost_params (Examples.costs 375 530 310)) * 1.2).
  { intros p [<- | []]. simpl. split; lra. }
  split; [exact H | ].
  destruct (risk_is_low_without_low_price_periods
              [Examples.point Examples.july1 500] (Examples.costs 375 530 310) H)
    as [res [Hrun [Hr _]]].
  exists res. split; [exact Hrun | exact Hr].
Defined.

End OptimizerExtras.

(** ** Forecast, then optimize *)

Module PipelineFacts.

Open Scope R_scope.

(** The two POST routes in sequence, as the dashboard calls them: with a
    loaded, non-empty store, a positive horizon whose dates are within the
    range and a generation cost that is not negative, the forecast is
    answered, the optimizer accepts its points and returns one decision per
    point, stamped like the point, on a price that is not negative and with an
    expected profit that is not negative; nor is the total. *)
Theorem forecast_then_optimize (LocalTZA : Z -> Z) (rnd : nat -> R)
  (st : Store.State) (request : Forecast.Config) (costs : Optimizer.Config)
  (start : Z) :
  Store.isDataLoaded st = true -> Store.powerMarketData st <> [] ->
  (0 < Forecast.prediction_hours request)%Z ->
  Forecast.prediction_date request = Some start ->
  (- Forecast.maxTimeValue <= start)%Z ->
  (start + (Forecast.prediction_hours request - 1) * (15 * 60 * 1000)
   <= Forecast.maxTimeValue)%Z ->
  0 <= Optimizer.generationCost (Optimizer.cost_params costs) ->
  exists forecast bids,
    Routes.predict LocalTZA rnd st (Some request) = Routes.Json forecast /\
    Routes.optimize (Some (Forecast.predictions forecast)) (Some costs)
    = Routes.Json bids /\
    Z.of_nat (length (Optimizer.bidding_schedule bids))
    = Forecast.prediction_hours request /\
    0 <= Optimizer.expected_profit bids /\
    forall i d, nth_error (Optimizer.bidding_schedule bids) i = Some d ->
      Bid.time_period d = (start + Z.of_nat i * (15 * 60 * 1000))%Z /\
      0 <= Bid.predicted_price d /\
      0 <= Bid.expected_profit d.
Proof.
  intros Hl Hne Hh Hd Hlo Hhi Hg.
  pose proof (ForecastFacts.stepsValid_in_range request start Hd Hlo Hhi) as Hv.
  destruct (ForecastFacts.run_valid LocalTZA rnd st request Hl Hne Hv)
    as [forecast [Hrun [_ Hp]]].
  set (g := Optimizer.generationCost (Optimizer.cost_params costs)) in *.
  pose proof (OptimizerExtras.run_unfold (Forecast.predictions forecast) costs)
    as Hopt. cbv zeta in Hopt. fold g in Hopt.
  eexists forecast, _.
  split; [unfold Routes.predict; rewrite Hrun; reflexivity | ].
  split; [unfold Routes.optimize; rewrite Hopt; reflexivity | ].
  cbn [Optimizer.bidding_schedule Optimizer.expected_profit].
  assert (Hlen : length (Forecast.predictions forecast)
                 = Z.to_nat (Forecast.prediction_hours request))
    by (rewrite Hp, length_map, length_seq; reflexivity).
  split; [rewrite length_map, Hlen; lia | ]. split.
  - apply OptimizerExtras.fold_left_Rplus_nonneg; [lra | ].
    intros x Hx. apply in_map_iff in Hx. destruct Hx as [p [<- _]].
    apply OptimizerExtras.bidFor_profit_nonneg, Hg.
  - intros i d Hi. rewrite nth_error_map in Hi.
    destruct (nth_error (Forecast.predictions forecast) i) as [p | ] eqn:Ep;
      [ | discriminate].
    injection Hi as <-.
    destruct (ForecastFacts.run_Ok_nth LocalTZA rnd st request forecast i p
                Hrun Ep) as [Hlt [Ht Hpt]].
    destruct (OptimizerFacts.bidFor_echo g p) as [-> ->].
    split; [ | split].
    + rewrite Hd in Ht.
      rewrite (ForecastFacts.timestampOf_in_range start
                 (Forecast.prediction_hours request) i Hlo Hhi) in Ht by lia.
      congruence.
    + rewrite Hpt. cbn [Forecast.pointAt Point.predicted_price]. apply Rmax_l.
    + apply OptimizerExtras.bidFor_profit_nonneg, Hg.
Qed.

Lemma forecast_then_optimize_witness :
  Store.isDataLoaded Examples.scenario_store = true /\
  Store.powerMarketData Examples.scenario_store <> [] /\
  (0 < Forecast.prediction_hours (Examples.request 96 0.95))%Z /\
  Forecast.prediction_date (Examples.request 96 0.95) = Some Examples.july1 /\
  (- Forecast.maxTimeValue <= Examples.july1)%Z /\
  (Examples.july1
   + (Forecast.prediction_hours (Examples.request 96 0.95) - 1)
     * (15 * 60 * 1000) <= Forecast.maxTimeValue)%Z /\
  0 <= Optimizer.generationCost
         (Optimizer.cost_params (Examples.costs 375 530 310)) /\
  exists forecast bids,
    Routes.predict Examples.utc8 (Examples.draws 0.25) Examples.scenario_store
      (Some (Examples.request 96 0.95)) = Routes.Json forecast /\
    Routes.optimize (Some (Forecast.predictions forecast))
      (Some (Examples.costs 375 530 310)) = Routes.Json bids /\
    Z.of_nat (length (Optimizer.bidding_schedule bids)) = 96%Z /\
    0 <= Optimizer.expected_profit bids.
Proof.
  assert (Hl : Store.isDataLoaded Examples.scenario_store = true) by reflexivity.
  assert (Hne : Store.powerMarketData Examples.scenario_store <> [])
    by (simpl; discriminate).
  assert (Hh : (0 < Forecast.prediction_hours (Examples.request 96 0.95))%Z)
    by (simpl; lia).
  assert (Hd : Forecast.prediction_date (Examples.request 96 0.95)
               = Some Examples.july1) by reflexivity.
  assert (Hlo : (- Forecast.maxTimeValue <= Examples.july1)%Z)
    by (unfold Forecast.maxTimeValue, Examples.july1; lia).
  assert (Hhi : (Examples.july1
                 + (Forecast.prediction_hours (Examples.request 96 0.95) - 1)
                   * (15 * 60 * 1000) <= Forecast.maxTimeValue)%Z)
    by (simpl; unfold Forecast.maxTimeValue, Examples.july1; lia).
  assert (Hg : 0 <= Optimizer.generationCost
                      (Optimizer.cost_params (Examples.costs 375 530 310)))
    by (simpl; lra).
  split; [exact Hl | ]. split; [exact Hne | ]. split; [exact Hh | ].
  split; [exact Hd | ]. split; [exact Hlo | ]. split; [exact Hhi | ].
  split; [exact Hg | ].
  destruct (forecast_then_optimize Examples.utc8 (Examples.draws 0.25)
              Examples.scenario_store (Examples.request 96 0.95)
              (Examples.costs 375 530 310) Examples.july1
              Hl Hne Hh Hd Hlo Hhi Hg)
    as [forecast [bids [H1 [H2 [H3 [H4 _]]]]]].
  exists forecast, bids. repeat split; assumption.
Defined.

End PipelineFacts.
